(** * PAJ-SM+ eligibility and stage progression

    A shallow embedding of [src/services/eligibilityService.js],
    [src/services/pajsmService.js] and the configuration they require
    ([../config/pajsm]), together with the part of the migration script that
    declares the three PAJ-SM+ tables.

    JavaScript values are a small inductive type; the request body [data] is
    the record of the properties the services read (an absent property is
    [JsUndefined]).  The PostgreSQL tables are lists of rows, each column
    holding the value the driver hands back for it: [INSERT] appends a row,
    [SELECT ... WHERE id = $1] filters, [UPDATE ... WHERE id = $1
    RETURNING *] rewrites every matching row and returns them.  A statement
    fails as PostgreSQL makes it fail: when the text sent for a parameter is
    not valid input for its column type, and when the new row breaks a NOT
    NULL, CHECK, primary key or foreign key constraint of the migration.
    What the driver sends for a value and what PostgreSQL reads from a text
    are not part of the repository: they are the fields of an [Engine], and
    every definition is stated for any engine.  The [outcome] column, whose
    CHECK admits three strings only, is an enumeration.  The two clocks the
    code reads ([new Date()] in Node and [NOW()] in SQL) and [uuidv4()] are
    inputs of each call. *)

From Stdlib Require Import ZArith List String Ascii Bool Lia Floats.
Import ListNotations.

#[local] Open Scope string_scope.
#[local] Open Scope Z_scope.

(* ================================================================== *)
(** ** JavaScript values *)

Module Js.

#[warnings="-register-all"]
Inductive JsValue : Type :=
| JsUndefined
| JsNull
| JsBool (b : bool)
| JsNumber (n : float)
| JsString (s : string)
| JsArray (elems : list JsValue)
| JsObject (props : list (string * JsValue)).

(** ToBoolean: [undefined], [null], [false], [0], [-0], [NaN] and the empty
    string are falsy, everything else is truthy. *)
Definition truthy (v : JsValue) : bool :=
  match v with
  | JsUndefined | JsNull => false
  | JsBool b => b
  | JsNumber n => negb (PrimFloat.is_zero n || PrimFloat.is_nan n)
  | JsString s => negb (String.eqb s EmptyString)
  | JsArray _ | JsObject _ => true
  end.

(** [a || b] *)
Definition js_or (a b : JsValue) : JsValue := if truthy a then a else b.

(** [Array.isArray(v)] *)
Definition isArray (v : JsValue) : bool :=
  match v with JsArray _ => true | _ => false end.

(** [v.some(f)], for [v] an array (every call is guarded by [isArray]). *)
Definition some (f : JsValue -> bool) (v : JsValue) : bool :=
  match v with JsArray l => existsb f l | _ => false end.

(** [L.includes(v)] for an array [L] of strings: SameValueZero equates a
    string with an equal string and with nothing else. *)
Definition includes (L : list string) (v : JsValue) : bool :=
  match v with
  | JsString s => existsb (String.eqb s) L
  | _ => false
  end.

(** [v !== 'lit'] *)
Definition strict_neq_string (v : JsValue) (lit : string) : bool :=
  match v with JsString s => negb (String.eqb s lit) | _ => true end.

(** [v !== true] *)
Definition strict_neq_true (v : JsValue) : bool :=
  match v with JsBool true => false | _ => true end.

(** [L.includes(v)] again, returning the member found: when the test holds
    [v] is that string, and it is the text a template literal interpolates
    for [${v}]. *)
Definition member (L : list string) (v : JsValue) : option string :=
  match v with
  | JsString s => if existsb (String.eqb s) L then Some s else None
  | _ => None
  end.

(** [obj[key]] on an object whose properties are strings, [None] standing
    for [undefined]. *)
Fixpoint get_property (obj : list (string * string)) (key : string)
  : option string :=
  match obj with
  | [] => None
  | (k, v) :: obj' => if String.eqb k key then Some v else get_property obj' key
  end.

(** [L.indexOf(s)]: the first index holding [s], or -1. *)
Fixpoint indexOf_from (L : list string) (s : string) (i : Z) : Z :=
  match L with
  | [] => -1
  | x :: L' => if String.eqb x s then i else indexOf_from L' s (i + 1)
  end.

Definition indexOf (L : list string) (s : string) : Z := indexOf_from L s 0.

(** [L[i]], [None] standing for [undefined]. *)
Definition at_index (L : list string) (i : Z) : option string :=
  if i <? 0 then None else nth_error L (Z.to_nat i).

(** [hay.includes(needle)] on strings (Jest's [stringContaining]). *)
Fixpoint str_contains (needle hay : string) : bool :=
  String.prefix needle hay ||
  match hay with
  | EmptyString => false
  | String _ hay' => str_contains needle hay'
  end.

End Js.
Import Js.

(* ================================================================== *)
(** ** Static configuration ([../config/pajsm]) *)

Module Config.

Definition VULNERABILITIES_MENTAL_HEALTH_DISORDER : string := "mental_health_disorder".
Definition VULNERABILITIES_INTELLECTUAL_DISABILITY : string := "intellectual_disability".
Definition VULNERABILITIES_ASD : string := "asd".
Definition VULNERABILITIES_SUBSTANCE_USE_DISORDER : string := "substance_use_disorder".
Definition VULNERABILITIES_TRAUMATIC_BRAIN_INJURY : string := "traumatic_brain_injury".

(** [VULNERABILITY_LABELS], an object keyed by the vulnerability keys, as
    its properties in insertion order. *)
Definition VULNERABILITY_LABELS : list (string * string) :=
  [ (VULNERABILITIES_MENTAL_HEALTH_DISORDER, "Mental health disorder (DSM-5)");
    (VULNERABILITIES_INTELLECTUAL_DISABILITY, "Intellectual disability (DI)");
    (VULNERABILITIES_ASD, "Autism spectrum disorder (TSA)");
    (VULNERABILITIES_SUBSTANCE_USE_DISORDER, "Substance use disorder");
    (VULNERABILITIES_TRAUMATIC_BRAIN_INJURY, "Traumatic brain injury (TCC)") ].

Definition EXCLUSIONS : list string :=
  [ "death_resulting_offences";
    "attempted_or_conspired_death_offences";
    "superior_court_jurisdiction";
    "sexual_offences_against_minors";
    "domestic_violence";
    "sexual_violence";
    "elder_abuse";
    "transport_offences_causing_injury";
    "terrorism";
    "criminal_organization";
    "firearms_weapons_by_indictment" ].

Definition ABSOLUTE_EXCLUSIONS : list string :=
  [ "death_resulting_offences";
    "attempted_or_conspired_death_offences";
    "superior_court_jurisdiction";
    "sexual_offences_against_minors";
    "transport_offences_causing_injury";
    "terrorism";
    "criminal_organization";
    "firearms_weapons_by_indictment" ].

Definition SUMMARY_ELIGIBLE_EXCEPTIONS : list string :=
  [ "domestic_violence";
    "sexual_violence";
    "elder_abuse" ].

Definition REFERRAL : string := "referral".
Definition PROSECUTOR_EVALUATION : string := "prosecutor_evaluation".
Definition CLINICAL_ELIGIBILITY : string := "clinical_eligibility".
Definition INTERVENTION_PLAN : string := "intervention_plan".
Definition HEARING_FOLLOWUPS : string := "hearing_followups".
Definition PROGRAM_OUTCOME : string := "program_outcome".

Definition PROGRAM_STAGES : list string :=
  [ REFERRAL;
    PROSECUTOR_EVALUATION;
    CLINICAL_ELIGIBILITY;
    INTERVENTION_PLAN;
    HEARING_FOLLOWUPS;
    PROGRAM_OUTCOME ].

End Config.
Import Config.

(* ================================================================== *)
(** ** The request body of the eligibility check and of [enroll] *)

Module Data.

Record t : Type := mk {
  referral_id : JsValue;
  accused_name : JsValue;
  district : JsValue;
  vulnerabilities : JsValue;
  diagnosed : JsValue;
  offence_description : JsValue;
  offence_category : JsValue;
  prosecution_mode : JsValue;
  accepts_responsibility : JsValue;
  is_voluntary : JsValue;
  waives_delay : JsValue;
  criminally_fit : JsValue;
  victim_consent : JsValue;
  victim_consent_mode : JsValue
}.

End Data.

(* ================================================================== *)
(** ** Eligibility evaluator ([services/eligibilityService.js]) *)

Module Eligibility.

(** [Object.values(VULNERABILITIES)], in insertion order. *)
Definition VALID_VULNERABILITIES : list string :=
  [ VULNERABILITIES_MENTAL_HEALTH_DISORDER;
    VULNERABILITIES_INTELLECTUAL_DISABILITY;
    VULNERABILITIES_ASD;
    VULNERABILITIES_SUBSTANCE_USE_DISORDER;
    VULNERABILITIES_TRAUMATIC_BRAIN_INJURY ].

Record Verdict : Type := mkVerdict {
  eligible : bool;
  reasons : list string
}.

(** [reasons.push(r)] *)
Definition push (reasons : list string) (r : string) : list string :=
  reasons ++ [r].

(** The double quote of the messages. *)
Definition dq : string := String "034"%char EmptyString.

Definition msg_vulnerability : string :=
  "At least one recognized vulnerability is required".
Definition msg_absolute (category : string) : string :=
  "Offence category " ++ dq ++ category ++ dq ++
  " is absolutely excluded from PAJ-SM+".
Definition msg_summary (category : string) : string :=
  "Offence category " ++ dq ++ category ++ dq ++
  " requires summary prosecution mode".
Definition msg_consent (category : string) : string :=
  "Offence category " ++ dq ++ category ++ dq ++
  " requires victim consent".
Definition msg_responsibility : string := "Accused must accept responsibility".
Definition msg_voluntary : string := "Participation must be voluntary".
Definition msg_delay : string := "Accused must waive delay rights".
Definition msg_fit : string := "Accused must be criminally fit and responsible".

Definition checkEligibility (data : Data.t) : Verdict :=
  let reasons : list string := [] in
  (* 1. At least one recognized vulnerability *)
  let hasVulnerability :=
    isArray (Data.vulnerabilities data) &&
    some (fun v => includes VALID_VULNERABILITIES v) (Data.vulnerabilities data) in
  let reasons :=
    if negb hasVulnerability then push reasons msg_vulnerability else reasons in
  (* 2. Offence not in absolute exclusion list *)
  let reasons :=
    match member ABSOLUTE_EXCLUSIONS (Data.offence_category data) with
    | Some category => push reasons (msg_absolute category)
    | None => reasons
    end in
  (* 3. Summary eligible exception: prosecution mode and victim consent *)
  let reasons :=
    match member SUMMARY_ELIGIBLE_EXCEPTIONS (Data.offence_category data) with
    | Some category =>
        let reasons :=
          if strict_neq_string (Data.prosecution_mode data) "summary"
          then push reasons (msg_summary category) else reasons in
        if strict_neq_true (Data.victim_consent data)
        then push reasons (msg_consent category) else reasons
    | None => reasons
    end in
  (* 4. Accused accepts responsibility *)
  let reasons :=
    if negb (truthy (Data.accepts_responsibility data))
    then push reasons msg_responsibility else reasons in
  (* 5. Voluntary participation *)
  let reasons :=
    if negb (truthy (Data.is_voluntary data))
    then push reasons msg_voluntary else reasons in
  (* 6. Waives delay rights *)
  let reasons :=
    if negb (truthy (Data.waives_delay data))
    then push reasons msg_delay else reasons in
  (* 7. Criminally fit and responsible *)
  let reasons :=
    if negb (truthy (Data.criminally_fit data))
    then push reasons msg_fit else reasons in
  {| eligible := (List.length reasons =? 0)%nat; reasons := reasons |}.

Definition getExclusions : list string := EXCLUSIONS.

(** One entry of the list [getVulnerabilityTypes] returns. *)
Record VulnerabilityType : Type := mkVulnerabilityType {
  key : string;
  label : option string
}.

Definition getVulnerabilityTypes : list VulnerabilityType :=
  map (fun key =>
         {| key := key; label := get_property VULNERABILITY_LABELS key |})
      VALID_VULNERABILITIES.

(** An input with at least one recognised vulnerability: [vulnerabilities]
    is an array and one of its entries is a valid vulnerability key. *)
Definition has_valid_vulnerability (data : Data.t) : Prop :=
  exists l s,
    Data.vulnerabilities data = JsArray l /\
    In (JsString s) l /\ In s VALID_VULNERABILITIES.

End Eligibility.
Import Eligibility.

(* ================================================================== *)
(** ** The PAJ-SM+ tables (the migration script) *)

(** A [TIMESTAMP] value. *)
Definition Timestamp : Type := Z.

(** [outcome VARCHAR(50) CHECK (outcome IN ('completed', 'withdrawn',
    'returned_to_court'))]; the column is nullable. *)
Inductive Outcome : Type := completed | withdrawn | returned_to_court.

Definition outcome_text (o : Outcome) : string :=
  match o with
  | completed => "completed"
  | withdrawn => "withdrawn"
  | returned_to_court => "returned_to_court"
  end.

(** The JavaScript value the driver hands back for a nullable [outcome]. *)
Definition outcome_value (o : option Outcome) : JsValue :=
  match o with
  | None => JsNull
  | Some o => JsString (outcome_text o)
  end.

(** A row of [pajsm_participants]. *)
Module Participant.

Record t : Type := mk {
  id : string;
  referral_id : JsValue;
  accused_name : JsValue;
  district : JsValue;
  vulnerabilities : JsValue;
  diagnosed : JsValue;
  offence_description : JsValue;
  offence_category : JsValue;
  prosecution_mode : JsValue;
  accepts_responsibility : JsValue;
  is_voluntary : JsValue;
  waives_delay : JsValue;
  criminally_fit : JsValue;
  victim_consent : JsValue;
  victim_consent_mode : JsValue;
  stage : string;
  enrolled_at : option Timestamp;
  completed_at : option Timestamp;
  outcome : option Outcome;
  created_at : Timestamp;
  updated_at : Timestamp
}.

Definition with_stage (v : string) (p : t) : t :=
  mk (id p) (referral_id p) (accused_name p) (district p) (vulnerabilities p)
     (diagnosed p) (offence_description p) (offence_category p)
     (prosecution_mode p) (accepts_responsibility p) (is_voluntary p)
     (waives_delay p) (criminally_fit p) (victim_consent p)
     (victim_consent_mode p) v (enrolled_at p) (completed_at p)
     (outcome p) (created_at p) (updated_at p).

Definition with_victim_consent (v : JsValue) (p : t) : t :=
  mk (id p) (referral_id p) (accused_name p) (district p) (vulnerabilities p)
     (diagnosed p) (offence_description p) (offence_category p)
     (prosecution_mode p) (accepts_responsibility p) (is_voluntary p)
     (waives_delay p) (criminally_fit p) v
     (victim_consent_mode p) (stage p) (enrolled_at p) (completed_at p)
     (outcome p) (created_at p) (updated_at p).

Definition with_enrolled_at (v : option Timestamp) (p : t) : t :=
  mk (id p) (referral_id p) (accused_name p) (district p) (vulnerabilities p)
     (diagnosed p) (offence_description p) (offence_category p)
     (prosecution_mode p) (accepts_responsibility p) (is_voluntary p)
     (waives_delay p) (criminally_fit p) (victim_consent p)
     (victim_consent_mode p) (stage p) v (completed_at p)
     (outcome p) (created_at p) (updated_at p).

Definition with_completed_at (v : option Timestamp) (p : t) : t :=
  mk (id p) (referral_id p) (accused_name p) (district p) (vulnerabilities p)
     (diagnosed p) (offence_description p) (offence_category p)
     (prosecution_mode p) (accepts_responsibility p) (is_voluntary p)
     (waives_delay p) (criminally_fit p) (victim_consent p)
     (victim_consent_mode p) (stage p) (enrolled_at p) v
     (outcome p) (created_at p) (updated_at p).

Definition with_outcome (v : option Outcome) (p : t) : t :=
  mk (id p) (referral_id p) (accused_name p) (district p) (vulnerabilities p)
     (diagnosed p) (offence_description p) (offence_category p)
     (prosecution_mode p) (accepts_responsibility p) (is_voluntary p)
     (waives_delay p) (criminally_fit p) (victim_consent p)
     (victim_consent_mode p) (stage p) (enrolled_at p) (completed_at p)
     v (created_at p) (updated_at p).

Definition with_updated_at (v : Timestamp) (p : t) : t :=
  mk (id p) (referral_id p) (accused_name p) (district p) (vulnerabilities p)
     (diagnosed p) (offence_description p) (offence_category p)
     (prosecution_mode p) (accepts_responsibility p) (is_voluntary p)
     (waives_delay p) (criminally_fit p) (victim_consent p)
     (victim_consent_mode p) (stage p) (enrolled_at p) (completed_at p)
     (outcome p) (created_at p) v.

End Participant.

(** A row of [pajsm_intervention_plans]. *)
Module Plan.

Record t : Type := mk {
  id : string;
  participant_id : string;
  plan_details : JsValue;
  objectives : JsValue;
  created_by : string;
  created_at : Timestamp;
  updated_at : Timestamp
}.

End Plan.

(** A row of [pajsm_follow_ups]. *)
Module FollowUp.

Record t : Type := mk {
  id : string;
  participant_id : string;
  follow_up_date : Timestamp;
  notes : JsValue;
  recorded_by : string;
  created_at : Timestamp
}.

End FollowUp.

(** The database: the three PAJ-SM+ tables and, for the tables their
    foreign keys point to, the ids of the rows.  A [UUID] is held as the
    text PostgreSQL prints for it. *)
Record Db : Type := mkDb {
  users : list string;
  referrals : list string;
  pajsm_participants : list Participant.t;
  pajsm_intervention_plans : list Plan.t;
  pajsm_follow_ups : list FollowUp.t
}.

(** What a call reads from outside the database: Node's clock
    ([new Date()]), the database's clock ([NOW()]) and [uuidv4()]. *)
Record Env : Type := mkEnv {
  now_js : Timestamp;
  now_db : Timestamp;
  uuid : string
}.

(** [req.user], the verified token payload. *)
Record User : Type := mkUser {
  user_id : string;
  user_email : string;
  user_role : string
}.

(** The request bodies of the two child-record routes. *)
Module PlanData.
Record t : Type := mk { plan_details : JsValue; objectives : JsValue }.
End PlanData.

Module FollowUpData.
Record t : Type := mk { follow_up_date : JsValue; notes : JsValue }.
End FollowUpData.

(* ================================================================== *)
(** ** Errors and the monad of the service functions *)

(** A thrown [Error]: its [message], and the [statusCode] and [reasons]
    properties when the code sets them. *)
Record Error : Type := mkError {
  message : string;
  statusCode : option Z;
  err_reasons : option (list string)
}.

Inductive Result (A : Type) : Type :=
| Ok (a : A)
| Throw (e : Error).

Arguments Ok {A} a.
Arguments Throw {A} e.

(** A service call runs against the database and either returns or throws;
    either way the database is left as the statements run so far made it. *)
Definition M (A : Type) : Type := Db -> Result A * Db.

Definition ret {A} (a : A) : M A := fun db => (Ok a, db).

Definition throw {A} (e : Error) : M A := fun db => (Throw e, db).

Definition bind {A B} (m : M A) (k : A -> M B) : M B :=
  fun db =>
    match m db with
    | (Ok a, db') => k a db'
    | (Throw e, db') => (Throw e, db')
    end.

Declare Scope service_scope.
Delimit Scope service_scope with service.
Notation "x <- m ;; k" := (bind m (fun x => k))
  (at level 61, m at next level, right associativity) : service_scope.
#[local] Open Scope service_scope.

(* ================================================================== *)
(** ** The driver and PostgreSQL, as far as the statements need them *)

Module Pg.

(** Why PostgreSQL rejects a statement. *)
Inductive Violation : Type :=
| invalid_input (parameter : string)
| not_null (column : string)
| check (column : string)
| unique (column : string)
| foreign_key (column : string).

(** What the repository takes from the driver and from PostgreSQL: the
    text the driver sends for a parameter that is neither null, a string
    nor a boolean; what PostgreSQL reads from a text for each column type
    of the migration ([None] when the text is not valid input, or too long
    for the column); and the message of the error it raises. *)
Record Engine : Type := mkEngine {
  serialize : JsValue -> string;
  uuid_in : string -> option string;
  varchar_in : nat -> string -> option string;
  text_in : string -> option string;
  bool_in : string -> option bool;
  text_array_in : string -> option (list (option string));
  timestamp_in : string -> option Timestamp;
  jsonb_in : string -> option JsValue;
  report : list Violation -> string
}.

(** The error [pool.query] throws when PostgreSQL rejects a statement: it
    has a message and no [statusCode]. *)
Definition db_error (pg : Engine) (violations : list Violation) : Error :=
  {| message := report pg violations;
     statusCode := None;
     err_reasons := None |}.

(** What the driver sends for a parameter: NULL for [null] and [undefined],
    a string as it is, a boolean as its name, anything else as the engine
    serializes it.  [None] is NULL. *)
Definition prepareValue (pg : Engine) (v : JsValue) : option string :=
  match v with
  | JsUndefined | JsNull => None
  | JsString s => Some s
  | JsBool true => Some "true"
  | JsBool false => Some "false"
  | JsNumber _ | JsArray _ | JsObject _ => Some (serialize pg v)
  end.

(** A parameter bound to a column whose type reads texts with [input]:
    [None] when the text is rejected, [Some None] for NULL, [Some (Some x)]
    for the value read. *)
Definition column {T : Type} (pg : Engine) (input : string -> option T)
    (v : JsValue) : option (option T) :=
  match prepareValue pg v with
  | None => Some None
  | Some text =>
      match input text with
      | Some x => Some (Some x)
      | None => None
      end
  end.

(** The value stored, NULL when there is none. *)
Definition value {T : Type} (c : option (option T)) : option T :=
  match c with
  | Some (Some x) => Some x
  | _ => None
  end.

Definition invalid {T : Type} (name : string) (c : option (option T))
  : list Violation :=
  match c with
  | None => [invalid_input name]
  | Some _ => []
  end.

(** [name ... NOT NULL] *)
Definition missing {T : Type} (name : string) (c : option (option T))
  : list Violation :=
  match c with
  | Some None => [not_null name]
  | _ => []
  end.

(** [CHECK (name IN (...))]: NULL passes. *)
Definition one_of (name : string) (allowed : list string)
    (c : option (option string)) : list Violation :=
  match c with
  | Some (Some s) => if existsb (String.eqb s) allowed then [] else [check name]
  | _ => []
  end.

(** [name UUID REFERENCES table(id)]: NULL passes. *)
Definition references (name : string) (ids : list string)
    (c : option (option string)) : list Violation :=
  match c with
  | Some (Some u) =>
      if existsb (String.eqb u) ids then [] else [foreign_key name]
  | _ => []
  end.

(** How the driver hands the stored values back. *)
Definition js_text (o : option string) : JsValue :=
  match o with Some s => JsString s | None => JsNull end.

Definition js_bool (o : option bool) : JsValue :=
  match o with Some b => JsBool b | None => JsNull end.

Definition js_text_array (o : option (list (option string))) : JsValue :=
  match o with Some l => JsArray (map js_text l) | None => JsNull end.

Definition js_json (o : option JsValue) : JsValue :=
  match o with Some v => v | None => JsNull end.

End Pg.
Import Pg.

(* ================================================================== *)
(** ** The SQL statements the service issues through [pool.query] *)

Module Sql.

(** One assignment of a [SET] clause on [pajsm_participants]. *)
Inductive Assignment : Type :=
| stage_eq (v : string)
| updated_at_eq (v : Timestamp)
| enrolled_at_eq (v : Timestamp)
| completed_at_eq (v : Timestamp)
| outcome_eq (v : Outcome)
| victim_consent_eq (v : JsValue).

Definition assign (a : Assignment) (p : Participant.t) : Participant.t :=
  match a with
  | stage_eq v => Participant.with_stage v p
  | updated_at_eq v => Participant.with_updated_at v p
  | enrolled_at_eq v => Participant.with_enrolled_at (Some v) p
  | completed_at_eq v => Participant.with_completed_at (Some v) p
  | outcome_eq v => Participant.with_outcome (Some v) p
  | victim_consent_eq v => Participant.with_victim_consent v p
  end.

Definition set (updates : list Assignment) (p : Participant.t) : Participant.t :=
  fold_left (fun row a => assign a row) updates p.

(** [WHERE id = $1], for the uuid [u] that [$1] reads as: the [id] of a
    row is the text of its uuid. *)
Definition where_id (u : string) (p : Participant.t) : bool :=
  String.eqb (Participant.id p) u.

(** [SELECT * FROM pajsm_participants WHERE id = $1] *)
Definition select_participants (pg : Engine) (id : string)
  : M (list Participant.t) :=
  fun db =>
    match uuid_in pg id with
    | None => (Throw (db_error pg [invalid_input "id"]), db)
    | Some u => (Ok (filter (where_id u) (pajsm_participants db)), db)
    end.

(** [UPDATE pajsm_participants SET ... WHERE id = $n RETURNING *].  The
    values assigned are a stage of [PROGRAM_STAGES], times and the constants
    of the statement: none of them breaks a constraint. *)
Definition update_participants (pg : Engine) (updates : list Assignment)
    (id : string) : M (list Participant.t) :=
  fun db =>
    match uuid_in pg id with
    | None => (Throw (db_error pg [invalid_input "id"]), db)
    | Some u =>
        let table :=
          map (fun p => if where_id u p then set updates p else p)
              (pajsm_participants db) in
        (Ok (map (set updates) (filter (where_id u) (pajsm_participants db))),
         mkDb (users db) (referrals db) table
              (pajsm_intervention_plans db) (pajsm_follow_ups db))
    end.

(** [INSERT INTO pajsm_participants (id, ..., stage) VALUES ($1, ..., $16)
    RETURNING *].  Each parameter is read as its column's type; the columns
    left out take their defaults, NULL for [enrolled_at], [completed_at]
    and [outcome], [NOW()] for [created_at] and [updated_at]; the row must
    satisfy the constraints of the table.  [stage] is a constant of the
    service and is stored as it is. *)
Definition insert_participant (pg : Engine) (now : Timestamp)
    (id : string)
    (referral_id accused_name district vulnerabilities diagnosed
     offence_description offence_category prosecution_mode
     accepts_responsibility is_voluntary waives_delay criminally_fit
     victim_consent victim_consent_mode : JsValue)
    (stage : string) : M (list Participant.t) :=
  fun db =>
    match uuid_in pg id with
    | None => (Throw (db_error pg [invalid_input "id"]), db)
    | Some u =>
        let c_referral_id := column pg (uuid_in pg) referral_id in
        let c_accused_name := column pg (varchar_in pg 255) accused_name in
        let c_district := column pg (varchar_in pg 255) district in
        let c_vulnerabilities := column pg (text_array_in pg) vulnerabilities in
        let c_diagnosed := column pg (bool_in pg) diagnosed in
        let c_offence_description := column pg (text_in pg) offence_description in
        let c_offence_category := column pg (varchar_in pg 100) offence_category in
        let c_prosecution_mode := column pg (varchar_in pg 20) prosecution_mode in
        let c_accepts_responsibility :=
          column pg (bool_in pg) accepts_responsibility in
        let c_is_voluntary := column pg (bool_in pg) is_voluntary in
        let c_waives_delay := column pg (bool_in pg) waives_delay in
        let c_criminally_fit := column pg (bool_in pg) criminally_fit in
        let c_victim_consent := column pg (bool_in pg) victim_consent in
        let c_victim_consent_mode :=
          column pg (varchar_in pg 10) victim_consent_mode in
        let violations :=
          (invalid "referral_id" c_referral_id
           ++ invalid "accused_name" c_accused_name
           ++ invalid "district" c_district
           ++ invalid "vulnerabilities" c_vulnerabilities
           ++ invalid "diagnosed" c_diagnosed
           ++ invalid "offence_description" c_offence_description
           ++ invalid "offence_category" c_offence_category
           ++ invalid "prosecution_mode" c_prosecution_mode
           ++ invalid "accepts_responsibility" c_accepts_responsibility
           ++ invalid "is_voluntary" c_is_voluntary
           ++ invalid "waives_delay" c_waives_delay
           ++ invalid "criminally_fit" c_criminally_fit
           ++ invalid "victim_consent" c_victim_consent
           ++ invalid "victim_consent_mode" c_victim_consent_mode
           ++ missing "accused_name" c_accused_name
           ++ missing "vulnerabilities" c_vulnerabilities
           ++ one_of "prosecution_mode" ["summary"; "indictment"]
                c_prosecution_mode
           ++ one_of "victim_consent_mode" ["written"; "verbal"]
                c_victim_consent_mode
           ++ (if existsb (where_id u) (pajsm_participants db)
               then [unique "id"] else [])
           ++ references "referral_id" (referrals db) c_referral_id)%list in
        match violations with
        | _ :: _ => (Throw (db_error pg violations), db)
        | [] =>
            let row :=
              Participant.mk u
                (js_text (value c_referral_id))
                (js_text (value c_accused_name))
                (js_text (value c_district))
                (js_text_array (value c_vulnerabilities))
                (js_bool (value c_diagnosed))
                (js_text (value c_offence_description))
                (js_text (value c_offence_category))
                (js_text (value c_prosecution_mode))
                (js_bool (value c_accepts_responsibility))
                (js_bool (value c_is_voluntary))
                (js_bool (value c_waives_delay))
                (js_bool (value c_criminally_fit))
                (js_bool (value c_victim_consent))
                (js_text (value c_victim_consent_mode))
                stage None None None now now in
            (Ok [row],
             mkDb (users db) (referrals db) (pajsm_participants db ++ [row])
                  (pajsm_intervention_plans db) (pajsm_follow_ups db))
        end
    end.

(** [INSERT INTO pajsm_intervention_plans (id, participant_id, plan_details,
    objectives, created_by) VALUES ($1, ..., $5) RETURNING *] *)
Definition insert_intervention_plan (pg : Engine) (now : Timestamp)
    (id participant_id : string) (plan_details objectives : JsValue)
    (created_by : string) : M (list Plan.t) :=
  fun db =>
    match uuid_in pg id, uuid_in pg participant_id, uuid_in pg created_by with
    | Some u, Some participant, Some user =>
        let c_plan_details := column pg (text_in pg) plan_details in
        let c_objectives := column pg (jsonb_in pg) objectives in
        let violations :=
          (invalid "plan_details" c_plan_details
           ++ invalid "objectives" c_objectives
           ++ (if existsb (fun row => String.eqb (Plan.id row) u)
                    (pajsm_intervention_plans db)
               then [unique "id"] else [])
           ++ (if existsb (where_id participant) (pajsm_participants db)
               then [] else [foreign_key "participant_id"])
           ++ (if existsb (String.eqb user) (users db)
               then [] else [foreign_key "created_by"]))%list in
        match violations with
        | _ :: _ => (Throw (db_error pg violations), db)
        | [] =>
            let row :=
              Plan.mk u participant (js_text (value c_plan_details))
                (js_json (value c_objectives)) user now now in
            (Ok [row],
             mkDb (users db) (referrals db) (pajsm_participants db)
                  (pajsm_intervention_plans db ++ [row]) (pajsm_follow_ups db))
        end
    | _, _, _ =>
        (Throw (db_error pg
                  (invalid "id" (column pg (uuid_in pg) (JsString id))
                   ++ invalid "participant_id"
                        (column pg (uuid_in pg) (JsString participant_id))
                   ++ invalid "created_by"
                        (column pg (uuid_in pg) (JsString created_by)))%list),
         db)
    end.

(** [INSERT INTO pajsm_follow_ups (id, participant_id, follow_up_date,
    notes, recorded_by) VALUES ($1, ..., $5) RETURNING *] *)
Definition insert_follow_up (pg : Engine) (now : Timestamp)
    (id participant_id : string) (follow_up_date notes : JsValue)
    (recorded_by : string) : M (list FollowUp.t) :=
  fun db =>
    match uuid_in pg id, uuid_in pg participant_id, uuid_in pg recorded_by,
          column pg (timestamp_in pg) follow_up_date with
    | Some u, Some participant, Some user, Some (Some date) =>
        let c_notes := column pg (text_in pg) notes in
        let violations :=
          (invalid "notes" c_notes
           ++ (if existsb (fun row => String.eqb (FollowUp.id row) u)
                    (pajsm_follow_ups db)
               then [unique "id"] else [])
           ++ (if existsb (where_id participant) (pajsm_participants db)
               then [] else [foreign_key "participant_id"])
           ++ (if existsb (String.eqb user) (users db)
               then [] else [foreign_key "recorded_by"]))%list in
        match violations with
        | _ :: _ => (Throw (db_error pg violations), db)
        | [] =>
            let row :=
              FollowUp.mk u participant date (js_text (value c_notes))
                user now in
            (Ok [row],
             mkDb (users db) (referrals db) (pajsm_participants db)
                  (pajsm_intervention_plans db) (pajsm_follow_ups db ++ [row]))
        end
    | _, _, _, c_follow_up_date =>
        (Throw (db_error pg
                  (invalid "id" (column pg (uuid_in pg) (JsString id))
                   ++ invalid "participant_id"
                        (column pg (uuid_in pg) (JsString participant_id))
                   ++ invalid "recorded_by"
                        (column pg (uuid_in pg) (JsString recorded_by))
                   ++ invalid "follow_up_date" c_follow_up_date
                   ++ missing "follow_up_date" c_follow_up_date)%list),
         db)
    end.

End Sql.
Import Sql.

(* ================================================================== *)
(** ** The service ([services/pajsmService.js]) *)

Module Pajsm.

(** [rows[0]], [None] standing for [undefined]. *)
Definition first {A} (rows : list A) : option A := hd_error rows.

Definition err_not_eligible (reasons : list string) : Error :=
  {| message := "Participant is not eligible for PAJ-SM+";
     statusCode := Some 400;
     err_reasons := Some reasons |}.

Definition err_not_found : Error :=
  {| message := "PAJ-SM+ participant not found";
     statusCode := Some 404;
     err_reasons := None |}.

Definition err_final_stage : Error :=
  {| message := "Cannot advance beyond the final stage";
     statusCode := Some 400;
     err_reasons := None |}.

Definition err_final_outcome : Error :=
  {| message := "Participant already has a final outcome";
     statusCode := Some 400;
     err_reasons := None |}.

Definition err_plan_stage : Error :=
  {| message :=
       "Intervention plans can only be created during the intervention_plan stage";
     statusCode := Some 400;
     err_reasons := None |}.

Definition err_follow_up_stage : Error :=
  {| message := "Follow-ups can only be added during the hearing_followups stage";
     statusCode := Some 400;
     err_reasons := None |}.

(** PostgreSQL's own error when [undefined] is bound to the NOT NULL column
    [stage]; it carries no [statusCode].  [advanceStage] never gets there
    (lemma [next_stage_defined] below). *)
Definition err_stage_null : Error :=
  {| message := "null value in column stage violates not-null constraint";
     statusCode := None;
     err_reasons := None |}.

Definition enroll (pg : Engine) (env : Env) (data : Data.t) (user : User)
  : M (option Participant.t) :=
  let result := checkEligibility data in
  if negb (eligible result) then
    throw (err_not_eligible (reasons result))
  else
    let id := uuid env in
    rows <- insert_participant pg (now_db env)
              id
              (js_or (Data.referral_id data) JsNull)
              (Data.accused_name data)
              (js_or (Data.district data) JsNull)
              (Data.vulnerabilities data)
              (js_or (Data.diagnosed data) (JsBool false))
              (js_or (Data.offence_description data) JsNull)
              (js_or (Data.offence_category data) JsNull)
              (js_or (Data.prosecution_mode data) JsNull)
              (Data.accepts_responsibility data)
              (Data.is_voluntary data)
              (Data.waives_delay data)
              (Data.criminally_fit data)
              (js_or (Data.victim_consent data) JsNull)
              (js_or (Data.victim_consent_mode data) JsNull)
              REFERRAL ;;
    ret (first rows).

Definition getById (pg : Engine) (id : string) (user : User) : M Participant.t :=
  rows <- select_participants pg id ;;
  match first rows with
  | None => throw err_not_found
  | Some row => ret row
  end.

Definition advanceStage (pg : Engine) (env : Env) (id : string) (user : User)
  : M (option Participant.t) :=
  participant <- getById pg id user ;;
  let currentIndex := indexOf PROGRAM_STAGES (Participant.stage participant) in
  if (currentIndex =? -1) ||
     (currentIndex >=? Z.of_nat (List.length PROGRAM_STAGES) - 1) then
    throw err_final_stage
  else
    match at_index PROGRAM_STAGES (currentIndex + 1) with
    | None => throw err_stage_null
    | Some nextStage =>
        let updates := [stage_eq nextStage; updated_at_eq (now_db env)] in
        (* Set enrolled_at when moving past referral into prosecutor evaluation *)
        let updates :=
          if String.eqb nextStage PROSECUTOR_EVALUATION &&
             negb (match Participant.enrolled_at participant with
                   | Some _ => true
                   | None => false
                   end)
          then (updates ++ [enrolled_at_eq (now_js env)])%list
          else updates in
        (* Set completed_at when reaching program outcome *)
        let updates :=
          if String.eqb nextStage PROGRAM_OUTCOME
          then (updates ++ [completed_at_eq (now_js env); outcome_eq completed])%list
          else updates in
        rows <- update_participants pg updates id ;;
        ret (first rows)
    end.

Definition withdraw (pg : Engine) (env : Env) (id : string) (reason : JsValue) (user : User)
  : M (option Participant.t) :=
  participant <- getById pg id user ;;
  if truthy (outcome_value (Participant.outcome participant)) then
    throw err_final_outcome
  else
    rows <- update_participants pg
              [outcome_eq withdrawn;
               completed_at_eq (now_db env);
               updated_at_eq (now_db env)]
              id ;;
    ret (first rows).

Definition revokeVictimConsent (pg : Engine) (env : Env) (id : string) (user : User)
  : M (option Participant.t) :=
  participant <- getById pg id user ;;
  if truthy (outcome_value (Participant.outcome participant)) then
    throw err_final_outcome
  else
    rows <- update_participants pg
              [victim_consent_eq (JsBool false);
               outcome_eq returned_to_court;
               completed_at_eq (now_db env);
               updated_at_eq (now_db env)]
              id ;;
    ret (first rows).

Definition createInterventionPlan (pg : Engine) (env : Env) (participantId : string)
    (data : PlanData.t) (user : User) : M (option Plan.t) :=
  participant <- getById pg participantId user ;;
  if negb (String.eqb (Participant.stage participant) INTERVENTION_PLAN) then
    throw err_plan_stage
  else
    let id := uuid env in
    rows <- insert_intervention_plan pg (now_db env)
              id participantId
              (js_or (PlanData.plan_details data) JsNull)
              (js_or (PlanData.objectives data) JsNull)
              (user_id user) ;;
    ret (first rows).

Definition addFollowUp (pg : Engine) (env : Env) (participantId : string)
    (data : FollowUpData.t) (user : User) : M (option FollowUp.t) :=
  participant <- getById pg participantId user ;;
  if negb (String.eqb (Participant.stage participant) HEARING_FOLLOWUPS) then
    throw err_follow_up_stage
  else
    let id := uuid env in
    rows <- insert_follow_up pg (now_db env)
              id participantId
              (FollowUpData.follow_up_date data)
              (js_or (FollowUpData.notes data) JsNull)
              (user_id user) ;;
    ret (first rows).

End Pajsm.
Import Pajsm.

(* ================================================================== *)
(** ** The HTTP layer ([routes/pajsm.js] and the middleware it goes through) *)

Module Http.

(** The role names of [../config/roles], a file that is not among the
    sources at hand: the routes are stated for any such table. *)
Record Roles : Type := mkRoles {
  POLICE_OFFICER : string;
  MENTAL_HEALTH_PROFESSIONAL : string;
  PHYSICIAN : string;
  TRIBUNAL_MEMBER : string;
  REQUESTING_PARTY : string;
  RESPONDENT : string;
  PROSECUTOR : string;
  ADMIN : string
}.

(** What [res.json] is given: a row (or [undefined]) returned by the
    service, or the object [{ error: { message } }]. *)
Inductive Json : Type :=
| json_participant (row : option Participant.t)
| json_plan (row : option Plan.t)
| json_follow_up (row : option FollowUp.t)
| json_error (message : string).

Record Response : Type := mkResponse {
  status : Z;
  body : Json
}.

(** [errorHandler(err, req, res, next)]; the log line is not modelled. *)
Definition errorHandler (err : Error) : Response :=
  let status :=
    match statusCode err with
    | Some code => if code =? 0 then 500 else code   (* err.statusCode || 500 *)
    | None => 500
    end in
  {| status := status;
     body := json_error (if status =? 500 then "Internal server error"
                         else message err) |}.

(** [authorize(...roles)]: [Some] response when the middleware answers
    itself, [None] when it calls [next()]. *)
Definition authorize (roles : list string) (user : User) : option Response :=
  if negb (existsb (String.eqb (user_role user)) roles) then
    Some {| status := 403; body := json_error "Insufficient permissions" |}
  else None.

(** A route behind [authorize(...roles)] whose handler is
    [try { const x = await call; res.status(ok).json(x) } catch (err)
    { next(err) }], [next(err)] ending in [errorHandler].  The request is
    past [authenticate]: [user] is [req.user]. *)
Definition route {A : Type} (roles : option (list string)) (user : User)
    (ok : Z) (to_json : A -> Json) (call : M A) : Db -> Response * Db :=
  fun db =>
    match match roles with
          | Some roles => authorize roles user
          | None => None
          end with
    | Some denied => (denied, db)
    | None =>
        match call db with
        | (Ok x, db') => ({| status := ok; body := to_json x |}, db')
        | (Throw err, db') => (errorHandler err, db')
        end
    end.

(** [POST /enroll] *)
Definition post_enroll (pg : Engine) (ROLES : Roles) (env : Env) (user : User)
    (body : Data.t) : Db -> Response * Db :=
  route (Some [MENTAL_HEALTH_PROFESSIONAL ROLES; PROSECUTOR ROLES; ADMIN ROLES])
    user 201 json_participant (enroll pg env body user).

(** [GET /:id] *)
Definition get_by_id (pg : Engine) (user : User) (id : string) : Db -> Response * Db :=
  route None user 200 (fun row => json_participant (Some row))
    (getById pg id user).

(** [PATCH /:id/advance] *)
Definition patch_advance (pg : Engine) (ROLES : Roles) (env : Env) (user : User)
    (id : string) : Db -> Response * Db :=
  route (Some [MENTAL_HEALTH_PROFESSIONAL ROLES; PROSECUTOR ROLES;
               TRIBUNAL_MEMBER ROLES; ADMIN ROLES])
    user 200 json_participant (advanceStage pg env id user).

(** [PATCH /:id/withdraw]; [reason] is [req.body.reason]. *)
Definition patch_withdraw (pg : Engine) (ROLES : Roles) (env : Env) (user : User)
    (id : string) (reason : JsValue) : Db -> Response * Db :=
  route (Some [MENTAL_HEALTH_PROFESSIONAL ROLES; PROSECUTOR ROLES;
               TRIBUNAL_MEMBER ROLES; ADMIN ROLES])
    user 200 json_participant (withdraw pg env id reason user).

(** [PATCH /:id/revoke-consent] *)
Definition patch_revoke_consent (pg : Engine) (ROLES : Roles) (env : Env) (user : User)
    (id : string) : Db -> Response * Db :=
  route (Some [ADMIN ROLES])
    user 200 json_participant (revokeVictimConsent pg env id user).

(** [POST /:id/intervention-plan] *)
Definition post_intervention_plan (pg : Engine) (ROLES : Roles) (env : Env) (user : User)
    (id : string) (body : PlanData.t) : Db -> Response * Db :=
  route (Some [MENTAL_HEALTH_PROFESSIONAL ROLES; ADMIN ROLES])
    user 201 json_plan (createInterventionPlan pg env id body user).

(** [POST /:id/follow-ups] *)
Definition post_follow_up (pg : Engine) (ROLES : Roles) (env : Env) (user : User)
    (id : string) (body : FollowUpData.t) : Db -> Response * Db :=
  route (Some [TRIBUNAL_MEMBER ROLES; MENTAL_HEALTH_PROFESSIONAL ROLES;
               ADMIN ROLES])
    user 201 json_follow_up (addFollowUp pg env id body user).

End Http.

(* ================================================================== *)
(** ** Successive calls *)

(** [advanceStage] called once per element of [envs], each call on the
    database the previous one left; the results in call order. *)
Fixpoint advance_each (pg : Engine) (envs : list Env) (id : string) (user : User) (db : Db)
  : list (Result (option Participant.t)) * Db :=
  match envs with
  | [] => ([], db)
  | env :: envs' =>
      let (r, db') := advanceStage pg env id user db in
      let (rs, db'') := advance_each pg envs' id user db' in
      (r :: rs, db'')
  end.

(** The database after a participant operation is the database before, or
    the result of one [UPDATE] of the rows with that id. *)
Definition same_or_updated (pg : Engine) (id : string) (db db1 : Db) : Prop :=
  db1 = db \/
  exists updates, db1 = snd (update_participants pg updates id db).

(** A request to one of the operations of the service, with what the call
    reads from outside, and the database it leaves. *)
Inductive Request : Type :=
| call_enroll (env : Env) (data : Data.t) (user : User)
| call_advanceStage (env : Env) (id : string) (user : User)
| call_withdraw (env : Env) (id : string) (reason : JsValue) (user : User)
| call_revokeVictimConsent (env : Env) (id : string) (user : User)
| call_createInterventionPlan (env : Env) (participantId : string)
    (data : PlanData.t) (user : User)
| call_addFollowUp (env : Env) (participantId : string)
    (data : FollowUpData.t) (user : User).

Definition serve (pg : Engine) (request : Request) (db : Db) : Db :=
  match request with
  | call_enroll env data user => snd (enroll pg env data user db)
  | call_advanceStage env id user => snd (advanceStage pg env id user db)
  | call_withdraw env id reason user => snd (withdraw pg env id reason user db)
  | call_revokeVictimConsent env id user =>
      snd (revokeVictimConsent pg env id user db)
  | call_createInterventionPlan env participantId data user =>
      snd (createInterventionPlan pg env participantId data user db)
  | call_addFollowUp env participantId data user =>
      snd (addFollowUp pg env participantId data user db)
  end.

(** The requests served one after the other, whether they return or throw. *)
Definition serve_all (pg : Engine) (requests : list Request) (db : Db) : Db :=
  fold_left (fun db request => serve pg request db) requests db.

(* ================================================================== *)
(** ** Concrete requests and stores used as examples *)

Module Fixture.

(** A small engine for the examples.  It reads a uuid in the standard
    8-4-4-4-12 layout, in either case, and prints it in lower case; it
    reads 'true', 't', 'false' and 'f' as booleans, a text that fits the
    column as itself, a date as year, month and day, an array of quoted
    words as the driver writes it below, and the JSON texts 'null', '[]'
    and '{}'.  The examples send nothing else. *)

Definition is_hex (c : ascii) : bool :=
  let n := nat_of_ascii c in
  ((48 <=? n) && (n <=? 57) || (97 <=? n) && (n <=? 102) ||
   (65 <=? n) && (n <=? 70))%nat.

Definition lower_hex (c : ascii) : ascii :=
  let n := nat_of_ascii c in
  if ((65 <=? n) && (n <=? 70))%nat then ascii_of_nat (n + 32) else c.

Fixpoint uuid_from (pos : nat) (s : string) : option string :=
  match s with
  | EmptyString => if (pos =? 36)%nat then Some EmptyString else None
  | String c s' =>
      if (36 <=? pos)%nat then None
      else if ((pos =? 8) || (pos =? 13) || (pos =? 18) || (pos =? 23))%nat
      then (if Ascii.eqb c "-"
            then option_map (String c) (uuid_from (S pos) s') else None)
      else (if is_hex c
            then option_map (String (lower_hex c)) (uuid_from (S pos) s')
            else None)
  end.

Definition digit (c : ascii) : option Z :=
  let n := nat_of_ascii c in
  if ((48 <=? n) && (n <=? 57))%nat then Some (Z.of_nat (n - 48)) else None.

Fixpoint number_from (acc : Z) (s : string) : option Z :=
  match s with
  | EmptyString => Some acc
  | String c s' =>
      match digit c with
      | Some d => number_from (10 * acc + d) s'
      | None => None
      end
  end.

(** 'YYYY-MM-DD', as the number YYYYMMDD. *)
Definition date_in (s : string) : option Timestamp :=
  if (String.length s =? 10)%nat &&
     String.eqb (substring 4 1 s) "-" && String.eqb (substring 7 1 s) "-"
  then number_from 0 (substring 0 4 s ++ substring 5 2 s ++ substring 8 2 s)
  else None.

Definition quote : string := String "034"%char EmptyString.

(** An array of strings, as the driver writes it: the elements between
    double quotes, separated by commas, in braces. *)
Definition array_out (v : JsValue) : string :=
  match v with
  | JsArray l =>
      "{" ++ String.concat ","
               (map (fun e => match e with
                              | JsString s => quote ++ s ++ quote
                              | _ => "NULL"
                              end) l)
          ++ "}"
  | _ => EmptyString
  end.

Fixpoint split_commas (s : string) : list string :=
  match s with
  | EmptyString => [EmptyString]
  | String c s' =>
      match split_commas s' with
      | piece :: pieces =>
          if Ascii.eqb c "," then EmptyString :: piece :: pieces
          else String c piece :: pieces
      | [] => [String c EmptyString]
      end
  end.

Definition element_in (piece : string) : option (option string) :=
  let n := String.length piece in
  if String.eqb piece "NULL" then Some None
  else if (2 <=? n)%nat && String.eqb (substring 0 1 piece) quote &&
          String.eqb (substring (n - 1) 1 piece) quote
  then Some (Some (substring 1 (n - 2) piece))
  else None.

Fixpoint all_read {T : Type} (l : list (option T)) : option (list T) :=
  match l with
  | [] => Some []
  | Some x :: l' => option_map (cons x) (all_read l')
  | None :: _ => None
  end.

Definition array_in (s : string) : option (list (option string)) :=
  let n := String.length s in
  if (2 <=? n)%nat && String.eqb (substring 0 1 s) "{" &&
     String.eqb (substring (n - 1) 1 s) "}"
  then (if (n =? 2)%nat then Some []
        else all_read (map element_in (split_commas (substring 1 (n - 2) s))))
  else None.

Definition pg : Engine :=
  {| serialize := array_out;
     uuid_in := uuid_from 0;
     varchar_in := fun n s => if (String.length s <=? n)%nat then Some s else None;
     text_in := fun s => Some s;
     bool_in := fun s =>
       if String.eqb s "true" || String.eqb s "t" then Some true
       else if String.eqb s "false" || String.eqb s "f" then Some false
       else None;
     text_array_in := array_in;
     timestamp_in := date_in;
     jsonb_in := fun s =>
       if String.eqb s "null" then Some JsNull
       else if String.eqb s "[]" then Some (JsArray [])
       else if String.eqb s "{}" then Some (JsObject [])
       else None;
     report := fun _ => "the statement was rejected" |}.

(** The ids of the examples. *)
Definition p1 : string := "5f0c1a52-8d3e-4b7a-9c21-0a1b2c3d4e01".
Definition p2 : string := "5f0c1a52-8d3e-4b7a-9c21-0a1b2c3d4e02".
Definition u1 : string := "0b9d7e64-2f1a-4c35-8e90-aa11bb22cc01".

Definition user : User := mkUser u1 "clerk@example.org" "admin".

(** Successive calls, each with its own clock readings and uuid. *)
Definition env1 : Env := mkEnv 1000 1001 "c3a1e0f2-6b4d-4e8f-a1b2-000000000001".
Definition env2 : Env := mkEnv 2000 2001 "c3a1e0f2-6b4d-4e8f-a1b2-000000000002".
Definition env3 : Env := mkEnv 3000 3001 "c3a1e0f2-6b4d-4e8f-a1b2-000000000003".
Definition env4 : Env := mkEnv 4000 4001 "c3a1e0f2-6b4d-4e8f-a1b2-000000000004".
Definition env5 : Env := mkEnv 5000 5001 "c3a1e0f2-6b4d-4e8f-a1b2-000000000005".
Definition env6 : Env := mkEnv 6000 6001 "c3a1e0f2-6b4d-4e8f-a1b2-000000000006".
Definition env7 : Env := mkEnv 7000 7001 "c3a1e0f2-6b4d-4e8f-a1b2-000000000007".

(** A request body that differs from an eligible one only where said. *)
Definition body (vulnerabilities offence_category prosecution_mode
                 victim_consent attestation : JsValue) : Data.t :=
  Data.mk JsUndefined (JsString "A. Accused") JsUndefined vulnerabilities
    JsUndefined JsUndefined offence_category prosecution_mode
    attestation attestation attestation attestation
    victim_consent JsUndefined.

Definition eligible_body : Data.t :=
  body (JsArray [JsString "asd"]) (JsString "theft") (JsString "summary")
       JsUndefined (JsBool true).

Definition failing_body : Data.t :=
  body (JsArray []) (JsString "terrorism") (JsString "indictment")
       JsUndefined (JsBool false).


(** The row of participant [p1] at a given stage and outcome. *)
Definition row (stage : string) (enrolled_at completed_at : option Timestamp)
    (outcome : option Outcome) : Participant.t :=
  Participant.mk p1 JsNull (JsString "A. Accused") JsNull
    (JsArray [JsString "asd"]) (JsBool false) JsNull (JsString "theft")
    (JsString "summary") (JsBool true) (JsBool true) (JsBool true)
    (JsBool true) JsNull JsNull stage enrolled_at completed_at outcome 10 10.

(** A database with one user, [u1], and the given participant. *)
Definition store (p : Participant.t) : Db := mkDb [u1] [] [p] [] [].

(** The same with no participant. *)
Definition empty : Db := mkDb [u1] [] [] [] [].

Definition plan_body : PlanData.t :=
  PlanData.mk (JsString "weekly counselling") JsUndefined.

Definition follow_up_body : FollowUpData.t :=
  FollowUpData.mk (JsString "2025-03-01") JsUndefined.

End Fixture.

(* ================================================================== *)
(** * Properties of the eligibility evaluator *)

Section EligibilityFacts.

Lemma verdict_shape (data : Data.t) :
  eligible (checkEligibility data)
  = (List.length (reasons (checkEligibility data)) =? 0)%nat.
Proof. reflexivity. Qed.

Lemma includes_In (L : list string) (s : string) :
  In s L -> includes L (JsString s) = true.
Proof.
  intros Hin. cbn [includes]. apply existsb_exists.
  exists s. split; [exact Hin | apply String.eqb_refl].
Qed.

Lemma member_In (L : list string) (v : JsValue) (s : string) :
  member L v = Some s <-> v = JsString s /\ In s L.
Proof.
  split.
  - destruct v; cbn [member]; try discriminate.
    destruct (existsb (String.eqb s0) L) eqn:E; [| discriminate].
    intros [= <-]. split; [reflexivity |].
    apply existsb_exists in E. destruct E as (x & Hx & Heq).
    apply String.eqb_eq in Heq. now subst.
  - intros [-> Hin]. cbn [member].
    change (existsb (String.eqb s) L) with (includes L (JsString s)).
    now rewrite includes_In.
Qed.

Lemma has_valid_vulnerability_check (data : Data.t) :
  has_valid_vulnerability data ->
  isArray (Data.vulnerabilities data) &&
  some (fun v => includes VALID_VULNERABILITIES v) (Data.vulnerabilities data)
  = true.
Proof.
  intros (l & s & -> & Hl & Hs). cbn [isArray some andb].
  apply existsb_exists. exists (JsString s). split; [exact Hl |].
  now apply includes_In.
Qed.

End EligibilityFacts.

(** C3. For every input, the verdict of [checkEligibility] has
    [eligible = true] exactly when its list of reasons is empty. *)
Theorem checkEligibility_eligible_iff_no_reasons (data : Data.t) :
  eligible (checkEligibility data) = true <->
  reasons (checkEligibility data) = [].
Proof.
  rewrite verdict_shape.
  destruct (reasons (checkEligibility data)) as [| r rs]; cbn.
  - split; reflexivity.
  - split; discriminate.
Qed.

(** C4. A maximally failing input (no vulnerability at all, an absolutely
    excluded category, prosecution by indictment, the four attestations
    false) is not eligible and gets six reasons, one for each failing check:
    the vulnerability, the absolute exclusion and the four attestations; the
    conditional-exclusion check adds none, the category being outside the
    summary-eligible exceptions.  Six is at least five. *)
Theorem checkEligibility_maximally_failing (data : Data.t) (category : string) :
  Data.vulnerabilities data = JsArray [] ->
  Data.offence_category data = JsString category ->
  In category ABSOLUTE_EXCLUSIONS ->
  Data.prosecution_mode data = JsString "indictment" ->
  Data.accepts_responsibility data = JsBool false ->
  Data.is_voluntary data = JsBool false ->
  Data.waives_delay data = JsBool false ->
  Data.criminally_fit data = JsBool false ->
  eligible (checkEligibility data) = false /\
  reasons (checkEligibility data)
  = [ msg_vulnerability; msg_absolute category; msg_responsibility;
      msg_voluntary; msg_delay; msg_fit ] /\
  member SUMMARY_ELIGIBLE_EXCEPTIONS (Data.offence_category data) = None /\
  (5 <= List.length (reasons (checkEligibility data)))%nat.
Proof.
  destruct data; cbn [Data.vulnerabilities Data.offence_category
    Data.prosecution_mode Data.accepts_responsibility Data.is_voluntary
    Data.waives_delay Data.criminally_fit].
  intros -> -> Hin -> -> -> -> ->.
  cbn [ABSOLUTE_EXCLUSIONS In] in Hin.
  repeat (destruct Hin as [<- | Hin];
          [ vm_compute; repeat split; repeat constructor | ]).
  contradiction.
Qed.

Lemma checkEligibility_maximally_failing_witness :
  eligible (checkEligibility Fixture.failing_body) = false /\
  List.length (reasons (checkEligibility Fixture.failing_body)) = 6%nat.
Proof.
  destruct (checkEligibility_maximally_failing Fixture.failing_body "terrorism")
    as (He & Hr & _ & _); try reflexivity.
  - cbn. tauto.
  - split; [exact He | now rewrite Hr].
Defined.

(** C5. For a category in the summary-eligible exceptions:
    (a) summary prosecution, victim consent strictly [true], a valid
        vulnerability and four truthy attestations make the input eligible;
    (b) with prosecution by indictment the input is not eligible, and one of
        the reasons contains the words "summary prosecution mode";
    (c) whenever [victim_consent] is anything but the boolean [true], the
        reason naming the category and the consent requirement is among the
        reasons. *)
Theorem checkEligibility_summary_exception (data : Data.t) (category : string) :
  Data.offence_category data = JsString category ->
  In category SUMMARY_ELIGIBLE_EXCEPTIONS ->
  (Data.prosecution_mode data = JsString "summary" ->
   Data.victim_consent data = JsBool true ->
   has_valid_vulnerability data ->
   truthy (Data.accepts_responsibility data) = true ->
   truthy (Data.is_voluntary data) = true ->
   truthy (Data.waives_delay data) = true ->
   truthy (Data.criminally_fit data) = true ->
   eligible (checkEligibility data) = true) /\
  (Data.prosecution_mode data = JsString "indictment" ->
   eligible (checkEligibility data) = false /\
   In (msg_summary category) (reasons (checkEligibility data)) /\
   str_contains "summary prosecution mode" (msg_summary category) = true) /\
  (Data.victim_consent data <> JsBool true ->
   eligible (checkEligibility data) = false /\
   In (msg_consent category) (reasons (checkEligibility data))).
Proof.
  intros Hcat Hin.
  assert (Hconsent : Data.victim_consent data <> JsBool true ->
                     strict_neq_true (Data.victim_consent data) = true).
  { destruct (Data.victim_consent data) as [| | [|] | | | |];
      intros H; try reflexivity. now elim H. }
  assert (Hsum : member SUMMARY_ELIGIBLE_EXCEPTIONS (Data.offence_category data)
                 = Some category) by (apply member_In; auto).
  assert (Habs : member ABSOLUTE_EXCLUSIONS (Data.offence_category data) = None).
  { rewrite Hcat. cbn [SUMMARY_ELIGIBLE_EXCEPTIONS In] in Hin.
    repeat (destruct Hin as [<- | Hin]; [reflexivity |]). contradiction. }
  split; [| split].
  - intros Hmode Hvc Hvuln Hr Hv Hw Hf.
    apply has_valid_vulnerability_check in Hvuln.
    unfold checkEligibility.
    rewrite Hvuln, Habs, Hsum, Hmode, Hvc, Hr, Hv, Hw, Hf. reflexivity.
  - intros Hmode.
    assert (Hr : In (msg_summary category) (reasons (checkEligibility data))).
    { unfold checkEligibility. rewrite Habs, Hsum, Hmode.
      cbn [strict_neq_string String.eqb Ascii.eqb Bool.eqb negb reasons push].
      repeat match goal with
             | |- context [if ?b then _ else _] => destruct b
             end;
        repeat (apply in_or_app; first [right; cbn; tauto | left]);
        cbn; tauto. }
    split; [| split].
    + rewrite verdict_shape.
      destruct (reasons (checkEligibility data)); [destruct Hr | reflexivity].
    + exact Hr.
    + cbn [SUMMARY_ELIGIBLE_EXCEPTIONS In] in Hin.
      repeat (destruct Hin as [<- | Hin]; [reflexivity |]). contradiction.
  - intros Hvc. apply Hconsent in Hvc.
    assert (Hr : In (msg_consent category) (reasons (checkEligibility data))).
    { unfold checkEligibility. rewrite Habs, Hsum, Hvc.
      cbn [reasons push].
      repeat match goal with
             | |- context [if ?b then _ else _] => destruct b
             end;
        repeat (apply in_or_app; first [right; cbn; tauto | left]);
        cbn; tauto. }
    split.
    + rewrite verdict_shape.
      destruct (reasons (checkEligibility data)); [destruct Hr | reflexivity].
    + exact Hr.
Qed.

Lemma checkEligibility_summary_exception_witness :
  eligible
    (checkEligibility
       (Fixture.body (JsArray [JsString "asd"]) (JsString "domestic_violence")
          (JsString "summary") (JsBool true) (JsBool true))) = true /\
  eligible
    (checkEligibility
       (Fixture.body (JsArray [JsString "asd"]) (JsString "domestic_violence")
          (JsString "indictment") (JsBool true) (JsBool true))) = false /\
  In (msg_consent "domestic_violence")
    (reasons
       (checkEligibility
          (Fixture.body (JsArray [JsString "asd"])
             (JsString "domestic_violence") (JsString "summary")
             JsUndefined (JsBool true)))).
Proof.
  destruct (checkEligibility_summary_exception
              (Fixture.body (JsArray [JsString "asd"])
                 (JsString "domestic_violence") (JsString "summary")
                 (JsBool true) (JsBool true)) "domestic_violence"
              eq_refl (or_introl eq_refl)) as (Ha & _ & _).
  destruct (checkEligibility_summary_exception
              (Fixture.body (JsArray [JsString "asd"])
                 (JsString "domestic_violence") (JsString "indictment")
                 (JsBool true) (JsBool true)) "domestic_violence"
              eq_refl (or_introl eq_refl)) as (_ & Hb & _).
  destruct (checkEligibility_summary_exception
              (Fixture.body (JsArray [JsString "asd"])
                 (JsString "domestic_violence") (JsString "summary")
                 JsUndefined (JsBool true)) "domestic_violence"
              eq_refl (or_introl eq_refl)) as (_ & _ & Hc).
  split; [| split].
  - apply Ha; try reflexivity.
    exists [JsString "asd"], "asd". cbn. tauto.
  - apply Hb. reflexivity.
  - apply Hc. cbn. discriminate.
Defined.


(* ================================================================== *)
(** * The store: what [getById] sees before and after an [UPDATE] *)

Section StoreFacts.

Lemma assign_id (a : Assignment) (p : Participant.t) :
  Participant.id (assign a p) = Participant.id p.
Proof. destruct a; reflexivity. Qed.

Lemma set_id (updates : list Assignment) (p : Participant.t) :
  Participant.id (set updates p) = Participant.id p.
Proof.
  unfold set. revert p.
  induction updates as [| a updates IH]; intros p; cbn [fold_left].
  - reflexivity.
  - rewrite IH. apply assign_id.
Qed.

Lemma where_id_set (updates : list Assignment) (id : string) (p : Participant.t) :
  where_id id (set updates p) = where_id id p.
Proof. unfold where_id. now rewrite set_id. Qed.

Lemma filter_update (updates : list Assignment) (id : string)
    (table : list Participant.t) :
  filter (where_id id)
    (map (fun p => if where_id id p then set updates p else p) table)
  = map (set updates) (filter (where_id id) table).
Proof.
  induction table as [| q table IH]; cbn [map filter]; [reflexivity |].
  destruct (where_id id q) eqn:E.
  - rewrite where_id_set, E. cbn [map]. now rewrite IH.
  - rewrite E. exact IH.
Qed.

Lemma first_map {A B} (f : A -> B) (rows : list A) :
  first (map f rows) = option_map f (first rows).
Proof. destruct rows; reflexivity. Qed.

Lemma getById_run (pg : Engine) (id : string) (user : User) (db : Db) :
  getById pg id user db
  = match uuid_in pg id with
    | None => (Throw (db_error pg [invalid_input "id"]), db)
    | Some u =>
        match first (filter (where_id u) (pajsm_participants db)) with
        | Some row => (Ok row, db)
        | None => (Throw err_not_found, db)
        end
    end.
Proof.
  unfold getById, bind, select_participants.
  destruct (uuid_in pg id) as [u |]; [| reflexivity].
  destruct (first (filter (where_id u) (pajsm_participants db))); reflexivity.
Qed.

Lemma getById_found (pg : Engine) (id : string) (user : User) (db db' : Db)
    (p : Participant.t) :
  getById pg id user db = (Ok p, db') ->
  exists u,
    uuid_in pg id = Some u /\
    first (filter (where_id u) (pajsm_participants db)) = Some p /\ db' = db.
Proof.
  rewrite getById_run.
  destruct (uuid_in pg id) as [u |]; [| discriminate].
  destruct (first (filter (where_id u) (pajsm_participants db))) eqn:E;
    intros [= ]; subst. eauto.
Qed.

Lemma getById_id (pg : Engine) (id : string) (user : User) (db db' : Db)
    (p : Participant.t) :
  getById pg id user db = (Ok p, db') ->
  uuid_in pg id = Some (Participant.id p) /\ In p (pajsm_participants db).
Proof.
  intros H. apply getById_found in H. destruct H as (u & Hu & H & _).
  destruct (filter (where_id u) (pajsm_participants db)) as [| q rows] eqn:E;
    [discriminate |].
  injection H as ->.
  assert (Hin : In p (filter (where_id u) (pajsm_participants db)))
    by (rewrite E; now left).
  apply filter_In in Hin. destruct Hin as [Hin Hid].
  apply String.eqb_eq in Hid. now subst u.
Qed.

Lemma update_participants_run (pg : Engine) (updates : list Assignment)
    (id : string) (user : User) (db : Db) (p : Participant.t) :
  getById pg id user db = (Ok p, db) ->
  exists db',
    (rows <- update_participants pg updates id ;; ret (first rows)) db
    = (Ok (Some (set updates p)), db') /\
    getById pg id user db' = (Ok (set updates p), db') /\
    pajsm_intervention_plans db' = pajsm_intervention_plans db /\
    pajsm_follow_ups db' = pajsm_follow_ups db.
Proof.
  intros Hget. apply getById_found in Hget. destruct Hget as (u & Hu & Hp & _).
  eexists. unfold bind, update_participants, ret. rewrite Hu.
  rewrite first_map, Hp. cbn [option_map]. split; [reflexivity |].
  split; [| split; reflexivity].
  rewrite getById_run, Hu. cbn [pajsm_participants].
  now rewrite filter_update, first_map, Hp.
Qed.

End StoreFacts.

(* ================================================================== *)
(** * One step of [advanceStage] *)

Section AdvanceFacts.

Lemma stage_cases (s : string) :
  In s PROGRAM_STAGES \/ indexOf PROGRAM_STAGES s = -1.
Proof.
  unfold indexOf. cbn [PROGRAM_STAGES indexOf_from].
  repeat match goal with
         | |- context [String.eqb ?a s] =>
             destruct (String.eqb_spec a s); [left; subst; cbn; tauto |]
         end.
  right. reflexivity.
Qed.

(** Past the guard of [advanceStage] the next stage is defined: the branch
    that binds [undefined] to [stage] is never taken. *)
Lemma next_stage_defined (s : string) :
  let currentIndex := indexOf PROGRAM_STAGES s in
  (currentIndex =? -1) ||
  (currentIndex >=? Z.of_nat (List.length PROGRAM_STAGES) - 1) = false ->
  exists nextStage,
    at_index PROGRAM_STAGES (currentIndex + 1) = Some nextStage.
Proof.
  intros currentIndex Hguard. subst currentIndex.
  destruct (stage_cases s) as [Hin | Hout].
  - cbn [PROGRAM_STAGES In] in Hin.
    repeat (destruct Hin as [<- | Hin];
            [ first [ now (eexists; reflexivity)
                    | vm_compute in Hguard; discriminate Hguard ] |]).
    contradiction.
  - rewrite Hout in Hguard. cbn in Hguard. discriminate Hguard.
Qed.

Lemma advanceStage_run (pg : Engine) (env : Env) (id : string) (user : User) (db : Db)
    (p : Participant.t) :
  getById pg id user db = (Ok p, db) ->
  advanceStage pg env id user db
  = let currentIndex := indexOf PROGRAM_STAGES (Participant.stage p) in
    if (currentIndex =? -1) ||
       (currentIndex >=? Z.of_nat (List.length PROGRAM_STAGES) - 1)
    then (Throw err_final_stage, db)
    else
      match at_index PROGRAM_STAGES (currentIndex + 1) with
      | None => (Throw err_stage_null, db)
      | Some nextStage =>
          let updates := [stage_eq nextStage; updated_at_eq (now_db env)] in
          let updates :=
            if String.eqb nextStage PROSECUTOR_EVALUATION &&
               negb (match Participant.enrolled_at p with
                     | Some _ => true
                     | None => false
                     end)
            then (updates ++ [enrolled_at_eq (now_js env)])%list
            else updates in
          let updates :=
            if String.eqb nextStage PROGRAM_OUTCOME
            then (updates ++ [completed_at_eq (now_js env);
                              outcome_eq completed])%list
            else updates in
          (rows <- update_participants pg updates id ;; ret (first rows)) db
      end.
Proof.
  intros Hget. unfold advanceStage, bind at 1. rewrite Hget. cbn zeta.
  destruct ((indexOf PROGRAM_STAGES (Participant.stage p) =? -1) ||
            (indexOf PROGRAM_STAGES (Participant.stage p)
             >=? Z.of_nat (List.length PROGRAM_STAGES) - 1)); [reflexivity |].
  destruct (at_index PROGRAM_STAGES
              (indexOf PROGRAM_STAGES (Participant.stage p) + 1));
    reflexivity.
Qed.

(** The step in full: when the stage of the stored row has the successor
    [nextStage], the call returns, and stores, the row with the new stage
    and [updated_at], with [enrolled_at] filled in when entering
    [prosecutor_evaluation] with none, and with [completed_at] and [outcome]
    set when entering [program_outcome]. *)
Lemma advanceStage_next (pg : Engine) (env : Env) (id : string) (user : User) (db : Db)
    (p : Participant.t) (nextStage : string) :
  getById pg id user db = (Ok p, db) ->
  (indexOf PROGRAM_STAGES (Participant.stage p) =? -1) ||
  (indexOf PROGRAM_STAGES (Participant.stage p)
   >=? Z.of_nat (List.length PROGRAM_STAGES) - 1) = false ->
  at_index PROGRAM_STAGES (indexOf PROGRAM_STAGES (Participant.stage p) + 1)
  = Some nextStage ->
  let p' :=
    Participant.with_outcome
      (if String.eqb nextStage PROGRAM_OUTCOME
       then Some completed else Participant.outcome p)
      (Participant.with_completed_at
         (if String.eqb nextStage PROGRAM_OUTCOME
          then Some (now_js env) else Participant.completed_at p)
         (Participant.with_enrolled_at
            (match Participant.enrolled_at p with
             | Some t => Some t
             | None => if String.eqb nextStage PROSECUTOR_EVALUATION
                       then Some (now_js env) else None
             end)
            (Participant.with_updated_at (now_db env)
               (Participant.with_stage nextStage p)))) in
  exists db',
    advanceStage pg env id user db = (Ok (Some p'), db') /\
    getById pg id user db' = (Ok p', db') /\
    pajsm_intervention_plans db' = pajsm_intervention_plans db /\
    pajsm_follow_ups db' = pajsm_follow_ups db.
Proof.
  intros Hget Hguard Hnext p'.
  rewrite (advanceStage_run pg env id user db p Hget). cbn zeta.
  rewrite Hguard, Hnext.
  match goal with
  | |- context [update_participants pg ?u id] =>
      destruct (update_participants_run pg u id user db p Hget)
        as (db' & Hrun & Hget' & Hplans & Hfollow);
      assert (Hp' : set u p = p')
  end.
  { subst p'. destruct p as [? ? ? ? ? ? ? ? ? ? ? ? ? ? ? ? enrolled ? ? ? ?].
    cbn [Participant.enrolled_at].
    destruct (String.eqb nextStage PROSECUTOR_EVALUATION),
             (String.eqb nextStage PROGRAM_OUTCOME),
             enrolled; reflexivity. }
  exists db'. rewrite <- Hp'. auto.
Qed.

End AdvanceFacts.

(* ================================================================== *)
(** * Properties of the stage progression *)

(** C7. For a stored participant whose outcome is unset, [withdraw] succeeds:
    the row it returns, which is also the stored row afterwards, has outcome
    [withdrawn] and [completed_at] at the database's current time, and its
    stage is the stage it had (it is not moved to [program_outcome]).  For a
    stored participant whose outcome is set, [withdraw] throws "Participant
    already has a final outcome" and the database is as it was. *)
Theorem withdraw_sets_outcome_keeps_stage (pg : Engine)
    (env : Env) (id : string) (reason : JsValue) (user : User)
    (db : Db) (p : Participant.t) :
  getById pg id user db = (Ok p, db) ->
  (Participant.outcome p = None ->
   exists p' db',
     withdraw pg env id reason user db = (Ok (Some p'), db') /\
     getById pg id user db' = (Ok p', db') /\
     Participant.outcome p' = Some withdrawn /\
     Participant.completed_at p' = Some (now_db env) /\
     Participant.stage p' = Participant.stage p) /\
  (forall o : Outcome,
     Participant.outcome p = Some o ->
     withdraw pg env id reason user db = (Throw err_final_outcome, db)).
Proof.
  intros Hget. split.
  - intros Hout.
    destruct (update_participants_run pg
                [outcome_eq withdrawn; completed_at_eq (now_db env);
                 updated_at_eq (now_db env)] id user db p Hget)
      as (db' & Hrun & Hget' & _).
    eexists _, db'. split; [| split; [exact Hget' |]].
    + unfold withdraw, bind at 1. rewrite Hget, Hout.
      cbn [outcome_value truthy]. exact Hrun.
    + repeat split.
  - intros o Hout. unfold withdraw, bind. rewrite Hget, Hout.
    destruct o; reflexivity.
Qed.

Lemma withdraw_sets_outcome_keeps_stage_witness :
  (exists p' db',
     withdraw Fixture.pg Fixture.env1 Fixture.p1 (JsString "moved away") Fixture.user
       (Fixture.store (Fixture.row CLINICAL_ELIGIBILITY (Some 500) None None))
     = (Ok (Some p'), db') /\
     getById Fixture.pg Fixture.p1 Fixture.user db' = (Ok p', db') /\
     Participant.outcome p' = Some withdrawn /\
     Participant.completed_at p' = Some 1001 /\
     Participant.stage p' = CLINICAL_ELIGIBILITY) /\
  withdraw Fixture.pg Fixture.env2 Fixture.p1 (JsString "again") Fixture.user
    (Fixture.store
       (Fixture.row CLINICAL_ELIGIBILITY (Some 500) (Some 1001) (Some withdrawn)))
  = (Throw err_final_outcome,
     Fixture.store
       (Fixture.row CLINICAL_ELIGIBILITY (Some 500) (Some 1001) (Some withdrawn))).
Proof.
  split.
  - refine (proj1 (withdraw_sets_outcome_keeps_stage Fixture.pg Fixture.env1 Fixture.p1
                     (JsString "moved away") Fixture.user
                     (Fixture.store
                        (Fixture.row CLINICAL_ELIGIBILITY (Some 500) None None))
                     (Fixture.row CLINICAL_ELIGIBILITY (Some 500) None None)
                     _) _); reflexivity.
  - refine (proj2 (withdraw_sets_outcome_keeps_stage Fixture.pg Fixture.env2 Fixture.p1
                     (JsString "again") Fixture.user
                     (Fixture.store
                        (Fixture.row CLINICAL_ELIGIBILITY (Some 500) (Some 1001)
                           (Some withdrawn)))
                     (Fixture.row CLINICAL_ELIGIBILITY (Some 500) (Some 1001)
                        (Some withdrawn))
                     _) withdrawn _); reflexivity.
Defined.

(** C10. The result of [withdraw] does not depend on its [reason] argument:
    for any two reasons the call returns the same row (or throws the same
    error) and leaves the same database. *)
Theorem withdraw_reason_irrelevant (pg : Engine)
    (env : Env) (id : string) (reason1 reason2 : JsValue) (user : User)
    (db : Db) :
  withdraw pg env id reason1 user db = withdraw pg env id reason2 user db.
Proof. reflexivity. Qed.

(** C1, on the code: [advanceStage] does not look at [outcome].  Once a
    participant is withdrawn at [referral], a second [withdraw] and
    [revokeVictimConsent] both throw "Participant already has a final
    outcome" and leave the database alone, but [advanceStage] succeeds and
    moves the participant to [prosecutor_evaluation]; a participant
    withdrawn at [hearing_followups] is advanced to [program_outcome] and
    its outcome [withdrawn] is overwritten with [completed]. *)
Theorem advanceStage_ignores_outcome :
  (let db0 := Fixture.store (Fixture.row REFERRAL None None None) in
   let db1 := snd (withdraw Fixture.pg Fixture.env1 Fixture.p1 JsUndefined Fixture.user db0) in
   getById Fixture.pg Fixture.p1 Fixture.user db1
   = (Ok (Participant.with_updated_at 1001
            (Fixture.row REFERRAL None (Some 1001) (Some withdrawn))), db1) /\
   withdraw Fixture.pg Fixture.env2 Fixture.p1 JsUndefined Fixture.user db1
   = (Throw err_final_outcome, db1) /\
   revokeVictimConsent Fixture.pg Fixture.env2 Fixture.p1 Fixture.user db1
   = (Throw err_final_outcome, db1) /\
   fst (advanceStage Fixture.pg Fixture.env2 Fixture.p1 Fixture.user db1)
   = Ok (Some (Participant.with_updated_at 2001
                 (Fixture.row PROSECUTOR_EVALUATION (Some 2000) (Some 1001)
                    (Some withdrawn))))) /\
  (let db0 :=
     Fixture.store
       (Fixture.row HEARING_FOLLOWUPS (Some 500) (Some 900) (Some withdrawn)) in
   fst (advanceStage Fixture.pg Fixture.env2 Fixture.p1 Fixture.user db0)
   = Ok (Some (Participant.with_updated_at 2001
                 (Fixture.row PROGRAM_OUTCOME (Some 500) (Some 2000)
                    (Some completed))))).
Proof. cbn zeta. repeat split. Qed.

(** C6, as the code has it.  On every successful [advanceStage] the stage
    becomes its successor and [updated_at] is refreshed from the database's
    clock.  Entering [prosecutor_evaluation] also sets [enrolled_at] to the
    current time when it was unset, and keeps it when it was set; entering
    [program_outcome] also sets [completed_at] to the current time and
    [outcome] to [completed]; any other transition changes nothing besides
    [stage] and [updated_at].  Every other column is as it was. *)
Theorem advanceStage_side_effects (pg : Engine)
    (env : Env) (id : string) (user : User) (db db' : Db)
    (p p' : Participant.t) :
  getById pg id user db = (Ok p, db) ->
  advanceStage pg env id user db = (Ok (Some p'), db') ->
  exists nextStage,
    at_index PROGRAM_STAGES
      (indexOf PROGRAM_STAGES (Participant.stage p) + 1) = Some nextStage /\
    (nextStage = PROSECUTOR_EVALUATION ->
     p' = Participant.with_enrolled_at
            (match Participant.enrolled_at p with
             | Some t => Some t
             | None => Some (now_js env)
             end)
            (Participant.with_updated_at (now_db env)
               (Participant.with_stage nextStage p))) /\
    (nextStage = PROGRAM_OUTCOME ->
     p' = Participant.with_outcome (Some completed)
            (Participant.with_completed_at (Some (now_js env))
               (Participant.with_updated_at (now_db env)
                  (Participant.with_stage nextStage p)))) /\
    (nextStage <> PROSECUTOR_EVALUATION ->
     nextStage <> PROGRAM_OUTCOME ->
     p' = Participant.with_updated_at (now_db env)
            (Participant.with_stage nextStage p)).
Proof.
  intros Hget Hadv.
  destruct ((indexOf PROGRAM_STAGES (Participant.stage p) =? -1) ||
            (indexOf PROGRAM_STAGES (Participant.stage p)
             >=? Z.of_nat (List.length PROGRAM_STAGES) - 1)) eqn:Hguard.
  { rewrite (advanceStage_run pg env id user db p Hget) in Hadv.
    cbn zeta in Hadv. rewrite Hguard in Hadv. discriminate Hadv. }
  destruct (next_stage_defined _ Hguard) as [nextStage Hnext].
  destruct (advanceStage_next pg env id user db p nextStage Hget Hguard Hnext)
    as (db'' & Hadv' & _).
  rewrite Hadv in Hadv'. injection Hadv' as -> _.
  exists nextStage. split; [exact Hnext |].
  destruct p as [? ? ? ? ? ? ? ? ? ? ? ? ? ? ? ? enrolled ? ? ? ?].
  cbn [Participant.enrolled_at].
  split; [| split].
  - intros ->. destruct enrolled; reflexivity.
  - intros ->. destruct enrolled; reflexivity.
  - intros H1 H2.
    apply String.eqb_neq in H1. apply String.eqb_neq in H2.
    rewrite H1, H2. destruct enrolled; reflexivity.
Qed.

Lemma advanceStage_side_effects_witness :
  exists nextStage,
    at_index PROGRAM_STAGES (indexOf PROGRAM_STAGES REFERRAL + 1)
    = Some nextStage /\
    nextStage = PROSECUTOR_EVALUATION.
Proof.
  destruct (advanceStage_side_effects Fixture.pg Fixture.env1 Fixture.p1 Fixture.user
              (Fixture.store (Fixture.row REFERRAL None None None))
              (Fixture.store
                 (Participant.with_updated_at 1001
                    (Fixture.row PROSECUTOR_EVALUATION (Some 1000) None None)))
              (Fixture.row REFERRAL None None None)
              (Participant.with_updated_at 1001
                 (Fixture.row PROSECUTOR_EVALUATION (Some 1000) None None))
              eq_refl eq_refl)
    as (nextStage & Hnext & _).
  exists nextStage. split; [exact Hnext |].
  cbn in Hnext. injection Hnext as <-. reflexivity.
Defined.

(** C6, against the claim as written: the transition from
    [prosecutor_evaluation] to [clinical_eligibility] is neither of the two
    singled out, yet it does not change the stage only: [updated_at] goes
    from 10 to the database's current time, 2001. *)
Lemma advanceStage_touches_updated_at :
  let p := Fixture.row PROSECUTOR_EVALUATION (Some 500) None None in
  exists p',
    fst (advanceStage Fixture.pg Fixture.env2 Fixture.p1 Fixture.user (Fixture.store p))
    = Ok (Some p') /\
    Participant.stage p' = CLINICAL_ELIGIBILITY /\
    Participant.updated_at p = 10 /\
    Participant.updated_at p' = 2001 /\
    p' <> Participant.with_stage CLINICAL_ELIGIBILITY p.
Proof.
  cbn zeta. eexists. split; [reflexivity |].
  repeat split. discriminate.
Qed.

(** C2, as the code has it.  From a stored participant at [referral], five
    successive calls of [advanceStage] succeed and walk through the stages
    in order; the fifth returns the participant at [program_outcome] with
    outcome [completed] and [completed_at] set to the time of that call; a
    sixth call throws "Cannot advance beyond the final stage" and leaves the
    database as it was. *)
Theorem advanceStage_five_calls_then_fails (pg : Engine)
    (env1 env2 env3 env4 env5 env6 : Env) (id : string) (user : User)
    (db : Db) (p : Participant.t) :
  getById pg id user db = (Ok p, db) ->
  Participant.stage p = REFERRAL ->
  exists p1 p2 p3 p4 p5 db5,
    advance_each pg [env1; env2; env3; env4; env5] id user db
    = ([Ok (Some p1); Ok (Some p2); Ok (Some p3); Ok (Some p4); Ok (Some p5)],
       db5) /\
    map Participant.stage [p1; p2; p3; p4; p5]
    = [PROSECUTOR_EVALUATION; CLINICAL_ELIGIBILITY; INTERVENTION_PLAN;
       HEARING_FOLLOWUPS; PROGRAM_OUTCOME] /\
    Participant.outcome p5 = Some completed /\
    Participant.completed_at p5 = Some (now_js env5) /\
    getById pg id user db5 = (Ok p5, db5) /\
    advanceStage pg env6 id user db5 = (Throw err_final_stage, db5).
Proof.
  intros Hget0 Hstage0.
  destruct (advanceStage_next pg env1 id user db p PROSECUTOR_EVALUATION Hget0)
    as (db1 & Hadv1 & Hget1 & _); try (rewrite Hstage0; reflexivity).
  match type of Hget1 with _ = (Ok ?r, _) => set (p1 := r) in * end.
  destruct (advanceStage_next pg env2 id user db1 p1 CLINICAL_ELIGIBILITY Hget1)
    as (db2 & Hadv2 & Hget2 & _); try reflexivity.
  match type of Hget2 with _ = (Ok ?r, _) => set (p2 := r) in * end.
  destruct (advanceStage_next pg env3 id user db2 p2 INTERVENTION_PLAN Hget2)
    as (db3 & Hadv3 & Hget3 & _); try reflexivity.
  match type of Hget3 with _ = (Ok ?r, _) => set (p3 := r) in * end.
  destruct (advanceStage_next pg env4 id user db3 p3 HEARING_FOLLOWUPS Hget3)
    as (db4 & Hadv4 & Hget4 & _); try reflexivity.
  match type of Hget4 with _ = (Ok ?r, _) => set (p4 := r) in * end.
  destruct (advanceStage_next pg env5 id user db4 p4 PROGRAM_OUTCOME Hget4)
    as (db5 & Hadv5 & Hget5 & _); try reflexivity.
  match type of Hget5 with _ = (Ok ?r, _) => set (p5 := r) in * end.
  exists p1, p2, p3, p4, p5, db5.
  split; [| split; [| split; [| split; [| split]]]].
  - cbn [advance_each].
    rewrite Hadv1, Hadv2, Hadv3, Hadv4, Hadv5. reflexivity.
  - reflexivity.
  - reflexivity.
  - reflexivity.
  - exact Hget5.
  - rewrite (advanceStage_run pg env6 id user db5 p5 Hget5). reflexivity.
Qed.

Lemma advanceStage_five_calls_then_fails_witness :
  exists p5 db5,
    nth_error
      (fst (advance_each Fixture.pg
              [Fixture.env1; Fixture.env2; Fixture.env3; Fixture.env4;
               Fixture.env5]
              Fixture.p1 Fixture.user
              (Fixture.store (Fixture.row REFERRAL None None None))))
      4
    = Some (Ok (Some p5)) /\
    Participant.stage p5 = PROGRAM_OUTCOME /\
    Participant.outcome p5 = Some completed /\
    Participant.completed_at p5 = Some 5000 /\
    advanceStage Fixture.pg Fixture.env6 Fixture.p1 Fixture.user db5
    = (Throw err_final_stage, db5).
Proof.
  destruct (advanceStage_five_calls_then_fails Fixture.pg
              Fixture.env1 Fixture.env2 Fixture.env3 Fixture.env4
              Fixture.env5 Fixture.env6 Fixture.p1 Fixture.user
              (Fixture.store (Fixture.row REFERRAL None None None))
              (Fixture.row REFERRAL None None None) eq_refl eq_refl)
    as (p1 & p2 & p3 & p4 & p5 & db5 & Hrun & Hstages & Hout & Hdone & _ & H6).
  exists p5, db5. rewrite Hrun.
  injection Hstages as _ _ _ _ Hs5.
  repeat split; assumption.
Defined.

(** C2, against the claim as written: from [referral] the sixth successive
    call does not succeed.  The fifth call already returns the participant
    at [program_outcome] with outcome [completed]; the sixth and the seventh
    both throw "Cannot advance beyond the final stage". *)
Lemma advanceStage_sixth_call_fails :
  let results :=
    fst (advance_each Fixture.pg
           [Fixture.env1; Fixture.env2; Fixture.env3; Fixture.env4;
            Fixture.env5; Fixture.env6; Fixture.env7]
           Fixture.p1 Fixture.user
           (Fixture.store (Fixture.row REFERRAL None None None))) in
  nth_error results 4
  = Some (Ok (Some (Participant.with_updated_at 5001
                      (Fixture.row PROGRAM_OUTCOME (Some 1000) (Some 5000)
                         (Some completed))))) /\
  nth_error results 5 = Some (Throw err_final_stage) /\
  nth_error results 6 = Some (Throw err_final_stage).
Proof. repeat split. Qed.

(* ================================================================== *)
(** * Enrolment and the child records *)

Section InsertFacts.

(** What the [INSERT] of [enroll] does: the new row is appended, or the
    statement is rejected and the database is as it was. *)
Lemma insert_participant_run (pg : Engine) (now : Timestamp) (id : string)
    (referral_id accused_name district vulnerabilities diagnosed
     offence_description offence_category prosecution_mode
     accepts_responsibility is_voluntary waives_delay criminally_fit
     victim_consent victim_consent_mode : JsValue)
    (stage : string) (db : Db) :
  (exists row,
     insert_participant pg now id referral_id accused_name district
       vulnerabilities diagnosed offence_description offence_category
       prosecution_mode accepts_responsibility is_voluntary waives_delay
       criminally_fit victim_consent victim_consent_mode stage db
     = (Ok [row],
        mkDb (users db) (referrals db) (pajsm_participants db ++ [row])
             (pajsm_intervention_plans db) (pajsm_follow_ups db)) /\
     uuid_in pg id = Some (Participant.id row) /\
     existsb (where_id (Participant.id row)) (pajsm_participants db) = false /\
     Participant.stage row = stage /\
     Participant.enrolled_at row = None /\
     Participant.completed_at row = None /\
     Participant.outcome row = None /\
     Participant.victim_consent row
     = js_bool (value (column pg (bool_in pg) victim_consent)) /\
     prepareValue pg accused_name <> None) \/
  (exists violations,
     violations <> [] /\
     insert_participant pg now id referral_id accused_name district
       vulnerabilities diagnosed offence_description offence_category
       prosecution_mode accepts_responsibility is_voluntary waives_delay
       criminally_fit victim_consent victim_consent_mode stage db
     = (Throw (db_error pg violations), db)).
Proof.
  unfold insert_participant.
  destruct (uuid_in pg id) as [u |];
    [| right; exists [invalid_input "id"]; split; [discriminate | reflexivity]].
  cbn zeta.
  match goal with
  | |- context [match ?v with [] => _ | _ :: _ => _ end] =>
      destruct v as [| v0 vs] eqn:E
  end.
  - left. eexists. split; [reflexivity |].
    cbn [Participant.id Participant.stage Participant.enrolled_at
         Participant.completed_at Participant.outcome
         Participant.victim_consent].
    repeat (apply app_eq_nil in E; destruct E as [? E]).
    repeat split; try reflexivity.
    + destruct (existsb (where_id u) (pajsm_participants db));
        [discriminate | reflexivity].
    + intros Hnull.
      unfold column in *. rewrite Hnull in *. discriminate.
  - right. eexists. split; [| reflexivity]. discriminate.
Qed.

End InsertFacts.




Section ChildInsertFacts.


Lemma insert_intervention_plan_run (pg : Engine) (now : Timestamp)
    (id participant_id : string) (plan_details objectives : JsValue)
    (created_by : string) (db : Db) :
  (exists row,
     insert_intervention_plan pg now id participant_id plan_details
       objectives created_by db
     = (Ok [row],
        mkDb (users db) (referrals db) (pajsm_participants db)
             (pajsm_intervention_plans db ++ [row]) (pajsm_follow_ups db)) /\
     uuid_in pg id = Some (Plan.id row) /\
     uuid_in pg participant_id = Some (Plan.participant_id row) /\
     uuid_in pg created_by = Some (Plan.created_by row) /\
     existsb (String.eqb (Plan.created_by row)) (users db) = true) \/
  (exists violations,
     violations <> [] /\
     insert_intervention_plan pg now id participant_id plan_details
       objectives created_by db
     = (Throw (db_error pg violations), db)).
Proof.
  unfold insert_intervention_plan.
  destruct (uuid_in pg id) as [u |] eqn:Eu,
           (uuid_in pg participant_id) as [participant |] eqn:Ep,
           (uuid_in pg created_by) as [user |] eqn:Ec;
    try (right; eexists; split; [| reflexivity];
         unfold column; cbn [prepareValue]; rewrite ?Eu, ?Ep, ?Ec;
         cbn; discriminate).
  cbn zeta.
  match goal with
  | |- context [match ?v with [] => _ | _ :: _ => _ end] =>
      destruct v as [| v0 vs] eqn:E
  end.
  - left. eexists. split; [reflexivity |].
    cbn [Plan.id Plan.participant_id Plan.created_by].
    repeat (apply app_eq_nil in E; destruct E as [? E]).
    repeat split.
    destruct (existsb (String.eqb user) (users db));
      [reflexivity | discriminate].
  - right. eexists. split; [| reflexivity]. discriminate.
Qed.

Lemma insert_follow_up_run (pg : Engine) (now : Timestamp)
    (id participant_id : string) (follow_up_date notes : JsValue)
    (recorded_by : string) (db : Db) :
  (exists row,
     insert_follow_up pg now id participant_id follow_up_date notes
       recorded_by db
     = (Ok [row],
        mkDb (users db) (referrals db) (pajsm_participants db)
             (pajsm_intervention_plans db) (pajsm_follow_ups db ++ [row])) /\
     uuid_in pg id = Some (FollowUp.id row) /\
     uuid_in pg participant_id = Some (FollowUp.participant_id row) /\
     column pg (timestamp_in pg) follow_up_date
     = Some (Some (FollowUp.follow_up_date row))) \/
  (exists violations,
     violations <> [] /\
     insert_follow_up pg now id participant_id follow_up_date notes
       recorded_by db
     = (Throw (db_error pg violations), db)).
Proof.
  unfold insert_follow_up.
  destruct (uuid_in pg id) as [u |] eqn:Eu,
           (uuid_in pg participant_id) as [participant |] eqn:Ep,
           (uuid_in pg recorded_by) as [user |] eqn:Ec,
           (column pg (timestamp_in pg) follow_up_date) as [[date |] |] eqn:Ed;
    try (right; eexists; split; [| reflexivity];
         unfold column; cbn [prepareValue]; rewrite ?Eu, ?Ep, ?Ec;
         cbn; discriminate).
  cbn zeta.
  match goal with
  | |- context [match ?v with [] => _ | _ :: _ => _ end] =>
      destruct v as [| v0 vs] eqn:E
  end.
  - left. eexists. split; [reflexivity |]. repeat split.
  - right. eexists. split; [| reflexivity]. discriminate.
Qed.



End ChildInsertFacts.




(* ================================================================== *)
(** * Further properties of the eligibility evaluator *)

Section EligibilityChecks.

(** The reasons, check by check. *)
Lemma reasons_by_check (data : Data.t) :
  reasons (checkEligibility data)
  = ((if isArray (Data.vulnerabilities data) &&
         some (fun v => includes VALID_VULNERABILITIES v)
              (Data.vulnerabilities data)
      then [] else [msg_vulnerability])
     ++ match member ABSOLUTE_EXCLUSIONS (Data.offence_category data) with
        | Some category => [msg_absolute category]
        | None => []
        end
     ++ match member SUMMARY_ELIGIBLE_EXCEPTIONS (Data.offence_category data) with
        | Some category =>
            (if strict_neq_string (Data.prosecution_mode data) "summary"
             then [msg_summary category] else [])
            ++ (if strict_neq_true (Data.victim_consent data)
                then [msg_consent category] else [])
        | None => []
        end
     ++ (if truthy (Data.accepts_responsibility data)
         then [] else [msg_responsibility])
     ++ (if truthy (Data.is_voluntary data) then [] else [msg_voluntary])
     ++ (if truthy (Data.waives_delay data) then [] else [msg_delay])
     ++ (if truthy (Data.criminally_fit data) then [] else [msg_fit]))%list.
Proof.
  unfold checkEligibility. cbn [reasons].
  destruct (isArray (Data.vulnerabilities data) &&
            some (fun v => includes VALID_VULNERABILITIES v)
                 (Data.vulnerabilities data));
    destruct (member ABSOLUTE_EXCLUSIONS (Data.offence_category data));
    destruct (member SUMMARY_ELIGIBLE_EXCEPTIONS (Data.offence_category data));
    destruct (strict_neq_string (Data.prosecution_mode data) "summary");
    destruct (strict_neq_true (Data.victim_consent data));
    destruct (truthy (Data.accepts_responsibility data));
    destruct (truthy (Data.is_voluntary data));
    destruct (truthy (Data.waives_delay data));
    destruct (truthy (Data.criminally_fit data));
    reflexivity.
Qed.

Lemma strict_neq_string_false (v : JsValue) (lit : string) :
  strict_neq_string v lit = false <-> v = JsString lit.
Proof.
  destruct v; cbn [strict_neq_string]; try (split; discriminate).
  rewrite negb_false_iff, String.eqb_eq. split; congruence.
Qed.

Lemma strict_neq_true_false (v : JsValue) :
  strict_neq_true v = false <-> v = JsBool true.
Proof.
  destruct v as [| | [|] | | | |]; cbn; split; congruence.
Qed.

Lemma absolute_summary_disjoint (s : string) :
  In s ABSOLUTE_EXCLUSIONS -> In s SUMMARY_ELIGIBLE_EXCEPTIONS -> False.
Proof.
  cbn [ABSOLUTE_EXCLUSIONS SUMMARY_ELIGIBLE_EXCEPTIONS In].
  intros Ha Hs.
  repeat (destruct Ha as [<- | Ha];
          [ repeat (destruct Hs as [Hs | Hs]; [discriminate Hs |]); exact Hs |]).
  exact Ha.
Qed.

Lemma member_absolute_summary (v : JsValue) (a : string) :
  member ABSOLUTE_EXCLUSIONS v = Some a ->
  member SUMMARY_ELIGIBLE_EXCEPTIONS v = None.
Proof.
  intros Ha.
  destruct (member SUMMARY_ELIGIBLE_EXCEPTIONS v) as [c |] eqn:Hs;
    [| reflexivity].
  apply member_In in Ha. apply member_In in Hs.
  destruct Ha as [-> Ha]. destruct Hs as [[= <-] Hs].
  destruct (absolute_summary_disjoint a Ha Hs).
Qed.

Lemma member_none (L : list string) (v : JsValue) :
  member L v = None <-> includes L v = false.
Proof.
  destruct v; cbn [member includes]; try (split; reflexivity).
  destruct (existsb (String.eqb s) L); split; congruence.
Qed.

End EligibilityChecks.

Section EligibilityVerdict.

Lemma app_nil_iff {A} (l l' : list A) :
  (l ++ l')%list = [] <-> l = [] /\ l' = [].
Proof.
  destruct l; cbn; split; try tauto.
  - discriminate.
  - intros [H _]. discriminate H.
Qed.

Lemma if_nil_iff {A} (b : bool) (x : A) :
  (if b then [] else [x]) = [] <-> b = true.
Proof. destruct b; split; congruence. Qed.

Lemma summary_piece_nil (data : Data.t) :
  match member SUMMARY_ELIGIBLE_EXCEPTIONS (Data.offence_category data) with
  | Some category =>
      ((if strict_neq_string (Data.prosecution_mode data) "summary"
        then [msg_summary category] else [])
       ++ (if strict_neq_true (Data.victim_consent data)
           then [msg_consent category] else []))%list
  | None => []
  end = [] <->
  (forall category,
     member SUMMARY_ELIGIBLE_EXCEPTIONS (Data.offence_category data)
     = Some category ->
     Data.prosecution_mode data = JsString "summary" /\
     Data.victim_consent data = JsBool true).
Proof.
  destruct (member SUMMARY_ELIGIBLE_EXCEPTIONS (Data.offence_category data))
    as [c |].
  - rewrite app_nil_iff.
    pose proof (strict_neq_string_false (Data.prosecution_mode data) "summary")
      as Hmode.
    pose proof (strict_neq_true_false (Data.victim_consent data)) as Hconsent.
    destruct (strict_neq_string (Data.prosecution_mode data) "summary"),
             (strict_neq_true (Data.victim_consent data));
      (split;
       [ intros [H1 H2];
         first [ discriminate H1 | discriminate H2
               | intros c' _; split; [now apply Hmode | now apply Hconsent] ]
       | intros H; destruct (H c eq_refl) as [H1 H2];
         apply Hmode in H1; apply Hconsent in H2;
         first [ discriminate H1 | discriminate H2 | split; reflexivity ] ]).
  - split; [intros _ c Hc; discriminate Hc | reflexivity].
Qed.

End EligibilityVerdict.

(** X1. The verdict is [eligible] exactly when every check passes: the
    vulnerabilities are an array holding a valid key, the category is not
    absolutely excluded, a summary-exception category comes with summary
    prosecution and victim consent strictly [true], and the four
    attestations are truthy. *)
Theorem eligible_iff_every_check_passes (data : Data.t) :
  eligible (checkEligibility data) = true <->
  (isArray (Data.vulnerabilities data) &&
   some (fun v => includes VALID_VULNERABILITIES v)
        (Data.vulnerabilities data) = true /\
   member ABSOLUTE_EXCLUSIONS (Data.offence_category data) = None /\
   (forall category,
      member SUMMARY_ELIGIBLE_EXCEPTIONS (Data.offence_category data)
      = Some category ->
      Data.prosecution_mode data = JsString "summary" /\
      Data.victim_consent data = JsBool true) /\
   truthy (Data.accepts_responsibility data) = true /\
   truthy (Data.is_voluntary data) = true /\
   truthy (Data.waives_delay data) = true /\
   truthy (Data.criminally_fit data) = true).
Proof.
  rewrite verdict_shape, Nat.eqb_eq, length_zero_iff_nil, reasons_by_check.
  repeat rewrite app_nil_iff.
  rewrite summary_piece_nil.
  assert (Habs :
    match member ABSOLUTE_EXCLUSIONS (Data.offence_category data) with
    | Some category => [msg_absolute category]
    | None => []
    end = [] <->
    member ABSOLUTE_EXCLUSIONS (Data.offence_category data) = None).
  { destruct (member ABSOLUTE_EXCLUSIONS (Data.offence_category data));
      split; congruence. }
  rewrite Habs.
  destruct (isArray (Data.vulnerabilities data) &&
            some (fun v => includes VALID_VULNERABILITIES v)
                 (Data.vulnerabilities data)),
           (truthy (Data.accepts_responsibility data)),
           (truthy (Data.is_voluntary data)),
           (truthy (Data.waives_delay data)),
           (truthy (Data.criminally_fit data));
    intuition congruence.
Qed.

Section ReasonTexts.

(** The reasons of the two category checks all begin with the same words;
    the reasons of the other checks do not. *)
Lemma category_reasons_prefix (data : Data.t) (m : string) :
  In m (match member ABSOLUTE_EXCLUSIONS (Data.offence_category data) with
        | Some category => [msg_absolute category]
        | None => []
        end
        ++ match member SUMMARY_ELIGIBLE_EXCEPTIONS (Data.offence_category data) with
           | Some category =>
               (if strict_neq_string (Data.prosecution_mode data) "summary"
                then [msg_summary category] else [])
               ++ (if strict_neq_true (Data.victim_consent data)
                   then [msg_consent category] else [])
           | None => []
           end)%list ->
  String.prefix "Offence category " m = true.
Proof.
  rewrite in_app_iff.
  destruct (member ABSOLUTE_EXCLUSIONS (Data.offence_category data));
    destruct (member SUMMARY_ELIGIBLE_EXCEPTIONS (Data.offence_category data));
    destruct (strict_neq_string (Data.prosecution_mode data) "summary");
    destruct (strict_neq_true (Data.victim_consent data));
    cbn [In app];
    intros H;
    repeat match type of H with
           | _ \/ _ => destruct H as [H | H]
           | False => destruct H
           | _ = m => subst m; reflexivity
           end.
Qed.

(** Membership of one of the five fixed messages among the reasons. *)
Lemma fixed_reason_iff (data : Data.t) (m : string) :
  String.prefix "Offence category " m = false ->
  In m (reasons (checkEligibility data)) <->
  In m ((if isArray (Data.vulnerabilities data) &&
            some (fun v => includes VALID_VULNERABILITIES v)
                 (Data.vulnerabilities data)
         then [] else [msg_vulnerability])
        ++ (if truthy (Data.accepts_responsibility data)
            then [] else [msg_responsibility])
        ++ (if truthy (Data.is_voluntary data) then [] else [msg_voluntary])
        ++ (if truthy (Data.waives_delay data) then [] else [msg_delay])
        ++ (if truthy (Data.criminally_fit data) then [] else [msg_fit]))%list.
Proof.
  intros Hm. rewrite reasons_by_check.
  pose proof (category_reasons_prefix data m) as Hcat.
  rewrite in_app_iff in Hcat.
  repeat rewrite in_app_iff.
  split.
  - intros [H | [H | [H | H]]]; auto.
    + rewrite Hcat in Hm by auto. discriminate Hm.
    + rewrite Hcat in Hm by auto. discriminate Hm.
  - intros [H | H]; auto.
Qed.

End ReasonTexts.

(** X2. Each attestation has its own reason, present exactly when the
    attestation is falsy: "Accused must accept responsibility",
    "Participation must be voluntary", "Accused must waive delay rights",
    "Accused must be criminally fit and responsible". *)
Theorem attestation_reason_iff_falsy (data : Data.t) :
  (In "Accused must accept responsibility" (reasons (checkEligibility data))
   <-> truthy (Data.accepts_responsibility data) = false) /\
  (In "Participation must be voluntary" (reasons (checkEligibility data))
   <-> truthy (Data.is_voluntary data) = false) /\
  (In "Accused must waive delay rights" (reasons (checkEligibility data))
   <-> truthy (Data.waives_delay data) = false) /\
  (In "Accused must be criminally fit and responsible"
      (reasons (checkEligibility data))
   <-> truthy (Data.criminally_fit data) = false).
Proof.
  repeat split; intros H;
    first [ apply fixed_reason_iff in H; [| reflexivity]
          | apply fixed_reason_iff; [reflexivity |] ];
    revert H;
    destruct (isArray (Data.vulnerabilities data) &&
              some (fun v => includes VALID_VULNERABILITIES v)
                   (Data.vulnerabilities data)),
             (truthy (Data.accepts_responsibility data)),
             (truthy (Data.is_voluntary data)),
             (truthy (Data.waives_delay data)),
             (truthy (Data.criminally_fit data));
    cbn [app In];
    intros H;
    try reflexivity; try discriminate H;
    try (repeat (destruct H as [H | H]; [discriminate H |]); destruct H);
    auto 10.
Qed.

(** X3. A verdict never has more than seven reasons (one for the
    vulnerabilities, at most two for the category, four for the
    attestations), and never more than six when the category is absolutely
    excluded: the absolute and the conditional check exclude each other. *)
Theorem reasons_at_most_seven (data : Data.t) :
  (List.length (reasons (checkEligibility data)) <= 7)%nat /\
  (forall category,
     member ABSOLUTE_EXCLUSIONS (Data.offence_category data) = Some category ->
     (List.length (reasons (checkEligibility data)) <= 6)%nat /\
     ~ In (msg_summary category) (reasons (checkEligibility data)) /\
     ~ In (msg_consent category) (reasons (checkEligibility data))).
Proof.
  split.
  - rewrite reasons_by_check.
    destruct (member ABSOLUTE_EXCLUSIONS (Data.offence_category data)) eqn:Ha;
      [ rewrite (member_absolute_summary _ _ Ha)
      | destruct (member SUMMARY_ELIGIBLE_EXCEPTIONS
                    (Data.offence_category data)) ];
      repeat match goal with
             | |- context [if ?b then _ else _] => destruct b
             end;
      cbn; lia.
  - intros category Ha.
    rewrite reasons_by_check, Ha, (member_absolute_summary _ _ Ha).
    apply member_In in Ha. destruct Ha as [_ Hin].
    cbn [ABSOLUTE_EXCLUSIONS In] in Hin.
    repeat match goal with
           | |- context [if ?b then _ else _] => destruct b
           end;
      (split; [cbn; lia |]);
      repeat (destruct Hin as [<- | Hin];
              [ split; cbn; intros H;
                repeat (destruct H as [H | H]; [discriminate H |]);
                exact H |]);
      destruct Hin.
Qed.

Lemma reasons_at_most_seven_witness :
  (List.length (reasons (checkEligibility Fixture.failing_body)) <= 6)%nat.
Proof.
  apply (proj2 (reasons_at_most_seven Fixture.failing_body) "terrorism").
  reflexivity.
Defined.

Section ExclusionLists.

Lemma existsb_eqb_In (s : string) (L : list string) :
  existsb (String.eqb s) L = true <-> In s L.
Proof.
  rewrite existsb_exists. split.
  - intros (x & Hx & Heq). apply String.eqb_eq in Heq. now subst.
  - intros H. exists s. split; [exact H | apply String.eqb_refl].
Qed.

Lemma member_some_iff (L : list string) (s : string) :
  member L (JsString s) <> None <-> In s L.
Proof.
  cbn [member]. rewrite <- existsb_eqb_In.
  destruct (existsb (String.eqb s) L); split; congruence.
Qed.

Lemma exclusions_split (s : string) :
  In s EXCLUSIONS <->
  In s ABSOLUTE_EXCLUSIONS \/ In s SUMMARY_ELIGIBLE_EXCEPTIONS.
Proof.
  cbn [EXCLUSIONS ABSOLUTE_EXCLUSIONS SUMMARY_ELIGIBLE_EXCEPTIONS In]. tauto.
Qed.

End ExclusionLists.

(** X4. The list [getExclusions] returns is exactly the set of categories on
    which [checkEligibility] runs a category check, each in one of the two
    checks and never in both.  For a category outside that list (or a
    category that is not a string) the verdict has no category reason: the
    reasons are those of the vulnerability check and of the attestations. *)
Theorem getExclusions_are_the_checked_categories (data : Data.t) :
  (includes getExclusions (Data.offence_category data) = true <->
   member ABSOLUTE_EXCLUSIONS (Data.offence_category data) <> None \/
   member SUMMARY_ELIGIBLE_EXCEPTIONS (Data.offence_category data) <> None) /\
  ~ (member ABSOLUTE_EXCLUSIONS (Data.offence_category data) <> None /\
     member SUMMARY_ELIGIBLE_EXCEPTIONS (Data.offence_category data) <> None) /\
  (includes getExclusions (Data.offence_category data) = false ->
   reasons (checkEligibility data)
   = ((if isArray (Data.vulnerabilities data) &&
          some (fun v => includes VALID_VULNERABILITIES v)
               (Data.vulnerabilities data)
       then [] else [msg_vulnerability])
      ++ (if truthy (Data.accepts_responsibility data)
          then [] else [msg_responsibility])
      ++ (if truthy (Data.is_voluntary data) then [] else [msg_voluntary])
      ++ (if truthy (Data.waives_delay data) then [] else [msg_delay])
      ++ (if truthy (Data.criminally_fit data) then [] else [msg_fit]))%list).
Proof.
  assert (Hlisted :
    includes getExclusions (Data.offence_category data) = true <->
    member ABSOLUTE_EXCLUSIONS (Data.offence_category data) <> None \/
    member SUMMARY_ELIGIBLE_EXCEPTIONS (Data.offence_category data) <> None).
  { destruct (Data.offence_category data) as [| | | | s | |];
      try (cbn [includes member];
           split; [discriminate | intros [H | H]; now elim H]).
    cbn [includes]. unfold getExclusions.
    rewrite existsb_eqb_In, exclusions_split, !member_some_iff. reflexivity. }
  split; [exact Hlisted | split].
  - intros [Ha Hs].
    destruct (member ABSOLUTE_EXCLUSIONS (Data.offence_category data)) eqn:E;
      [| congruence].
    apply member_absolute_summary in E. congruence.
  - intros Hout.
    assert (Ha : member ABSOLUTE_EXCLUSIONS (Data.offence_category data) = None).
    { destruct (member ABSOLUTE_EXCLUSIONS (Data.offence_category data)) eqn:E;
        [| reflexivity].
      assert (includes getExclusions (Data.offence_category data) = true)
        by (apply Hlisted; left; congruence).
      congruence. }
    assert (Hs : member SUMMARY_ELIGIBLE_EXCEPTIONS (Data.offence_category data)
                 = None).
    { destruct (member SUMMARY_ELIGIBLE_EXCEPTIONS (Data.offence_category data))
        eqn:E; [| reflexivity].
      assert (includes getExclusions (Data.offence_category data) = true)
        by (apply Hlisted; right; congruence).
      congruence. }
    rewrite reasons_by_check, Ha, Hs. reflexivity.
Qed.

Lemma getExclusions_are_the_checked_categories_witness :
  reasons (checkEligibility Fixture.eligible_body) = [].
Proof.
  apply (proj2 (proj2 (getExclusions_are_the_checked_categories
                         Fixture.eligible_body))).
  reflexivity.
Defined.

(** X5. The verdict depends on nothing but the vulnerabilities, the offence
    category and the four attestations, and, for a summary-exception
    category only, on the prosecution mode and the victim consent.  Two
    request bodies that agree on those get the same verdict, whatever their
    other properties ([diagnosed], [district], ... and, outside the summary
    exceptions, [prosecution_mode] and [victim_consent]). *)
Theorem verdict_depends_on_checked_fields_only (data data' : Data.t) :
  Data.vulnerabilities data = Data.vulnerabilities data' ->
  Data.offence_category data = Data.offence_category data' ->
  Data.accepts_responsibility data = Data.accepts_responsibility data' ->
  Data.is_voluntary data = Data.is_voluntary data' ->
  Data.waives_delay data = Data.waives_delay data' ->
  Data.criminally_fit data = Data.criminally_fit data' ->
  (member SUMMARY_ELIGIBLE_EXCEPTIONS (Data.offence_category data) <> None ->
   Data.prosecution_mode data = Data.prosecution_mode data' /\
   Data.victim_consent data = Data.victim_consent data') ->
  checkEligibility data = checkEligibility data'.
Proof.
  intros Hv Hc Hr Hvol Hw Hf Hsum.
  assert (Hreasons : reasons (checkEligibility data)
                     = reasons (checkEligibility data')).
  { rewrite !reasons_by_check, <- Hv, <- Hc, <- Hr, <- Hvol, <- Hw, <- Hf.
    destruct (member SUMMARY_ELIGIBLE_EXCEPTIONS (Data.offence_category data));
      [| reflexivity].
    destruct Hsum as [<- <-]; [discriminate | reflexivity]. }
  pose proof (verdict_shape data) as He.
  pose proof (verdict_shape data') as He'.
  rewrite Hreasons, <- He' in He.
  destruct (checkEligibility data), (checkEligibility data').
  cbn in *. congruence.
Qed.

Lemma verdict_depends_on_checked_fields_only_witness :
  checkEligibility
    (Fixture.body (JsArray [JsString "asd"]) (JsString "theft")
       (JsString "indictment") (JsBool false) (JsBool true))
  = checkEligibility Fixture.eligible_body.
Proof.
  apply verdict_depends_on_checked_fields_only; try reflexivity.
  intros H. now elim H.
Defined.

(** X6. [getVulnerabilityTypes] lists the five valid keys in order, each with
    a label, and these keys are exactly what the vulnerability check accepts:
    the reason "At least one recognized vulnerability is required" is absent
    precisely when [vulnerabilities] is an array one of whose entries is the
    key of a listed type. *)
Theorem getVulnerabilityTypes_keys_are_accepted (data : Data.t) :
  map key getVulnerabilityTypes = VALID_VULNERABILITIES /\
  List.length getVulnerabilityTypes = 5%nat /\
  Forall (fun t => label t <> None) getVulnerabilityTypes /\
  (~ In "At least one recognized vulnerability is required"
        (reasons (checkEligibility data))
   <-> exists l t,
         Data.vulnerabilities data = JsArray l /\
         In t getVulnerabilityTypes /\
         In (JsString (key t)) l).
Proof.
  split; [reflexivity | split; [reflexivity | split]].
  - repeat constructor; discriminate.
  - assert (Hcheck :
      isArray (Data.vulnerabilities data) &&
      some (fun v => includes VALID_VULNERABILITIES v)
           (Data.vulnerabilities data) = true
      <-> exists l t,
            Data.vulnerabilities data = JsArray l /\
            In t getVulnerabilityTypes /\ In (JsString (key t)) l).
    { split.
      - destruct (Data.vulnerabilities data) as [| | | | | l |];
          cbn [isArray some andb]; try discriminate.
        intros H. apply existsb_exists in H. destruct H as (v & Hv & Hinc).
        destruct v as [| | | | s | |]; cbn [includes] in Hinc;
          try discriminate.
        apply existsb_eqb_In in Hinc.
        exists l, {| key := s; label := get_property VULNERABILITY_LABELS s |}.
        split; [reflexivity | split; [| exact Hv]].
        unfold getVulnerabilityTypes.
        apply in_map_iff. exists s. split; [reflexivity | exact Hinc].
      - intros (l & t & -> & Ht & Hl). cbn [isArray some andb].
        apply existsb_exists. exists (JsString (key t)). split; [exact Hl |].
        apply includes_In.
        unfold getVulnerabilityTypes in Ht. apply in_map_iff in Ht.
        destruct Ht as (k & <- & Hk). exact Hk. }
    rewrite <- Hcheck, fixed_reason_iff by reflexivity.
    destruct (isArray (Data.vulnerabilities data) &&
              some (fun v => includes VALID_VULNERABILITIES v)
                   (Data.vulnerabilities data)),
             (truthy (Data.accepts_responsibility data)),
             (truthy (Data.is_voluntary data)),
             (truthy (Data.waives_delay data)),
             (truthy (Data.criminally_fit data));
      cbn [app In];
      (split;
       [ intros H; first [ reflexivity | exfalso; apply H; auto ]
       | intros E H; first [ discriminate E | idtac ];
         repeat (destruct H as [H | H]; [discriminate H |]); exact H ]).
Qed.

(* ================================================================== *)
(** * Further properties of the stage progression *)

Section ExitFacts.

(** Both exits refuse a participant whose outcome is set. *)
Lemma final_outcome_guard (pg : Engine) (env : Env) (id : string) (reason : JsValue)
    (user : User) (db : Db) (p : Participant.t) (o : Outcome) :
  getById pg id user db = (Ok p, db) ->
  Participant.outcome p = Some o ->
  withdraw pg env id reason user db = (Throw err_final_outcome, db) /\
  revokeVictimConsent pg env id user db = (Throw err_final_outcome, db).
Proof.
  intros Hget Hout. unfold withdraw, revokeVictimConsent, bind.
  rewrite Hget, Hout. destruct o; split; reflexivity.
Qed.

Lemma withdraw_run (pg : Engine) (env : Env) (id : string) (reason : JsValue)
    (user : User) (db : Db) (p : Participant.t) :
  getById pg id user db = (Ok p, db) ->
  Participant.outcome p = None ->
  withdraw pg env id reason user db
  = (rows <- update_participants pg
               [outcome_eq withdrawn; completed_at_eq (now_db env);
                updated_at_eq (now_db env)] id ;;
     ret (first rows)) db.
Proof.
  intros Hget Hout. unfold withdraw, bind at 1. now rewrite Hget, Hout.
Qed.

Lemma revokeVictimConsent_run (pg : Engine) (env : Env) (id : string) (user : User)
    (db : Db) (p : Participant.t) :
  getById pg id user db = (Ok p, db) ->
  Participant.outcome p = None ->
  revokeVictimConsent pg env id user db
  = (rows <- update_participants pg
               [victim_consent_eq (JsBool false); outcome_eq returned_to_court;
                completed_at_eq (now_db env); updated_at_eq (now_db env)] id ;;
     ret (first rows)) db.
Proof.
  intros Hget Hout. unfold revokeVictimConsent, bind at 1.
  now rewrite Hget, Hout.
Qed.

End ExitFacts.

(** X7. For a stored participant whose outcome is unset,
    [revokeVictimConsent] succeeds whatever the stored consent and category:
    the row it returns and stores has [victim_consent] false, outcome
    [returned_to_court], [completed_at] and [updated_at] at the database's
    current time, and every other column, the stage among them, as before;
    the child tables are untouched.  For a participant whose outcome is set
    it throws "Participant already has a final outcome" and changes
    nothing. *)
Theorem revokeVictimConsent_forces_exit (pg : Engine)
    (env : Env) (id : string) (user : User) (db : Db) (p : Participant.t) :
  getById pg id user db = (Ok p, db) ->
  (Participant.outcome p = None ->
   let p' :=
     Participant.with_updated_at (now_db env)
       (Participant.with_completed_at (Some (now_db env))
          (Participant.with_outcome (Some returned_to_court)
             (Participant.with_victim_consent (JsBool false) p))) in
   exists db',
     revokeVictimConsent pg env id user db = (Ok (Some p'), db') /\
     getById pg id user db' = (Ok p', db') /\
     Participant.stage p' = Participant.stage p /\
     pajsm_intervention_plans db' = pajsm_intervention_plans db /\
     pajsm_follow_ups db' = pajsm_follow_ups db) /\
  (forall o : Outcome,
     Participant.outcome p = Some o ->
     revokeVictimConsent pg env id user db = (Throw err_final_outcome, db)).
Proof.
  intros Hget. split.
  - intros Hout p'.
    destruct (update_participants_run pg
                [victim_consent_eq (JsBool false); outcome_eq returned_to_court;
                 completed_at_eq (now_db env); updated_at_eq (now_db env)]
                id user db p Hget)
      as (db' & Hrun & Hget' & Hplans & Hfollow).
    exists db'. rewrite (revokeVictimConsent_run pg env id user db p Hget Hout).
    repeat split; assumption.
  - intros o Hout.
    apply (final_outcome_guard pg env id JsUndefined user db p o Hget Hout).
Qed.

Lemma revokeVictimConsent_forces_exit_witness :
  fst (revokeVictimConsent Fixture.pg Fixture.env1 Fixture.p1 Fixture.user
         (Fixture.store (Fixture.row INTERVENTION_PLAN (Some 500) None None)))
  = Ok (Some (Participant.with_updated_at 1001
                (Participant.with_victim_consent (JsBool false)
                   (Fixture.row INTERVENTION_PLAN (Some 500) (Some 1001)
                      (Some returned_to_court))))) /\
  revokeVictimConsent Fixture.pg Fixture.env2 Fixture.p1 Fixture.user
    (Fixture.store
       (Fixture.row PROGRAM_OUTCOME (Some 500) (Some 900) (Some completed)))
  = (Throw err_final_outcome,
     Fixture.store
       (Fixture.row PROGRAM_OUTCOME (Some 500) (Some 900) (Some completed))).
Proof.
  split.
  - destruct (proj1 (revokeVictimConsent_forces_exit Fixture.pg Fixture.env1 Fixture.p1
                       Fixture.user
                       (Fixture.store
                          (Fixture.row INTERVENTION_PLAN (Some 500) None None))
                       (Fixture.row INTERVENTION_PLAN (Some 500) None None)
                       eq_refl) eq_refl)
      as (db' & Hrun & _).
    rewrite Hrun. reflexivity.
  - apply (proj2 (revokeVictimConsent_forces_exit Fixture.pg Fixture.env2 Fixture.p1
                    Fixture.user
                    (Fixture.store
                       (Fixture.row PROGRAM_OUTCOME (Some 500) (Some 900)
                          (Some completed)))
                    (Fixture.row PROGRAM_OUTCOME (Some 500) (Some 900)
                       (Some completed))
                    eq_refl) completed).
    reflexivity.
Defined.

Section LookupFacts.

Lemma filter_nil_iff {A} (f : A -> bool) (l : list A) :
  filter f l = [] <-> forall x, In x l -> f x = false.
Proof.
  induction l as [| a l IH]; cbn [filter].
  - split; [intros _ x [] | reflexivity].
  - destruct (f a) eqn:E.
    + split; [discriminate |].
      intros H. rewrite (H a) in E by (now left). discriminate E.
    + rewrite IH. split.
      * intros H x [<- | Hx]; auto.
      * intros H x Hx. apply H. now right.
Qed.

Lemma no_row_with_id (u : string) (db : Db) :
  (forall row, In row (pajsm_participants db) -> Participant.id row <> u) <->
  filter (where_id u) (pajsm_participants db) = [].
Proof.
  rewrite filter_nil_iff. unfold where_id.
  split; intros H row Hrow.
  - apply String.eqb_neq. now apply H.
  - apply String.eqb_neq. now apply H.
Qed.

Lemma getById_keeps_db (pg : Engine) (id : string) (user : User) (db : Db) :
  snd (getById pg id user db) = db.
Proof.
  rewrite getById_run.
  destruct (uuid_in pg id) as [u |]; [| reflexivity].
  destruct (first (filter (where_id u) (pajsm_participants db))); reflexivity.
Qed.

Lemma first_app {A} (l l' : list A) :
  first (l ++ l') = match first l with Some x => Some x | None => first l' end.
Proof. destruct l; reflexivity. Qed.

End LookupFacts.

(** X9. When the requested id reads as a uuid, [getById] throws the 404
    error "PAJ-SM+ participant not found" exactly when no row of the table
    has that uuid; when it does not read as a uuid, the SELECT is rejected
    and [getById] throws the database's error, which has no status code.
    Whatever [getById] throws, every operation on that id ([advanceStage],
    [withdraw], [revokeVictimConsent], [createInterventionPlan],
    [addFollowUp]) throws the same error and changes nothing.  When
    [getById] returns, the row is a row of the table whose id is the uuid
    requested, and the database is unchanged. *)
Theorem missing_participant_is_not_found (pg : Engine)
    (env : Env) (id : string) (reason : JsValue) (plan : PlanData.t)
    (followUp : FollowUpData.t) (user : User) (db : Db) :
  (forall u,
     uuid_in pg id = Some u ->
     (getById pg id user db = (Throw err_not_found, db) <->
      forall row, In row (pajsm_participants db) -> Participant.id row <> u)) /\
  (uuid_in pg id = None ->
   getById pg id user db = (Throw (db_error pg [invalid_input "id"]), db) /\
   statusCode (db_error pg [invalid_input "id"]) = None) /\
  (forall e,
     getById pg id user db = (Throw e, db) ->
     advanceStage pg env id user db = (Throw e, db) /\
     withdraw pg env id reason user db = (Throw e, db) /\
     revokeVictimConsent pg env id user db = (Throw e, db) /\
     createInterventionPlan pg env id plan user db = (Throw e, db) /\
     addFollowUp pg env id followUp user db = (Throw e, db)) /\
  (forall row db',
     getById pg id user db = (Ok row, db') ->
     uuid_in pg id = Some (Participant.id row) /\
     In row (pajsm_participants db) /\ db' = db).
Proof.
  split; [| split; [| split]].
  - intros u Hu. rewrite no_row_with_id, getById_run, Hu.
    destruct (filter (where_id u) (pajsm_participants db));
      cbn [first hd_error]; split; congruence.
  - intros Hu. rewrite getById_run, Hu. split; reflexivity.
  - intros e Hget.
    unfold advanceStage, withdraw, revokeVictimConsent,
      createInterventionPlan, addFollowUp, bind.
    rewrite Hget. repeat split.
  - intros row db' Hget.
    destruct (getById_id pg id user db db' row Hget) as [Hu Hin].
    split; [exact Hu | split; [exact Hin |]].
    pose proof (getById_keeps_db pg id user db) as Hdb.
    rewrite Hget in Hdb. exact Hdb.
Qed.

Lemma missing_participant_is_not_found_witness :
  withdraw Fixture.pg Fixture.env1 Fixture.p2 JsUndefined Fixture.user
    (Fixture.store (Fixture.row REFERRAL None None None))
  = (Throw err_not_found, Fixture.store (Fixture.row REFERRAL None None None))
  /\
  fst (withdraw Fixture.pg Fixture.env1 "p-1" JsUndefined Fixture.user
         (Fixture.store (Fixture.row REFERRAL None None None)))
  = Throw (db_error Fixture.pg [invalid_input "id"]).
Proof.
  destruct (missing_participant_is_not_found Fixture.pg Fixture.env1
              Fixture.p2 JsUndefined Fixture.plan_body Fixture.follow_up_body
              Fixture.user
              (Fixture.store (Fixture.row REFERRAL None None None)))
    as (_ & _ & Hthrow & _).
  destruct (missing_participant_is_not_found Fixture.pg Fixture.env1
              "p-1" JsUndefined Fixture.plan_body Fixture.follow_up_body
              Fixture.user
              (Fixture.store (Fixture.row REFERRAL None None None)))
    as (_ & Hbad & Hthrow' & _).
  split.
  - apply (Hthrow err_not_found). reflexivity.
  - destruct (Hbad eq_refl) as [Hget _].
    destruct (Hthrow' _ Hget) as (_ & -> & _). reflexivity.
Defined.

Section EnrolFacts.

Lemma existsb_false_filter {A} (f : A -> bool) (l : list A) :
  existsb f l = false -> filter f l = [].
Proof.
  induction l as [| a l IH]; cbn [existsb filter]; [reflexivity |].
  destruct (f a); cbn [orb]; [discriminate | exact IH].
Qed.

Lemma enroll_ok_inv (pg : Engine) (env : Env) (data : Data.t) (user : User)
    (db db' : Db) (p : Participant.t) :
  enroll pg env data user db = (Ok (Some p), db') ->
  eligible (checkEligibility data) = true /\
  db' = mkDb (users db) (referrals db) (pajsm_participants db ++ [p])
             (pajsm_intervention_plans db) (pajsm_follow_ups db) /\
  uuid_in pg (uuid env) = Some (Participant.id p) /\
  existsb (where_id (Participant.id p)) (pajsm_participants db) = false /\
  Participant.victim_consent p
  = js_bool (value (column pg (bool_in pg)
                      (js_or (Data.victim_consent data) JsNull))).
Proof.
  unfold enroll.
  destruct (eligible (checkEligibility data)); [| discriminate].
  cbn [negb]. unfold bind.
  match goal with
  | |- context [insert_participant pg ?now ?id ?a1 ?a2 ?a3 ?a4 ?a5 ?a6 ?a7
                  ?a8 ?a9 ?a10 ?a11 ?a12 ?a13 ?a14 ?st db] =>
      destruct (insert_participant_run pg now id a1 a2 a3 a4 a5 a6 a7 a8 a9
                  a10 a11 a12 a13 a14 st db)
        as [(row & -> & Hid & Hfresh & _ & _ & _ & _ & Hconsent & _)
           | (violations & _ & ->)]
  end; [| discriminate].
  cbn [ret first hd_error]. intros [= <- <-]. auto.
Qed.

End EnrolFacts.

(** X10. Enrolment and lookup round trip.  When [enroll] returns a
    participant, no participant had its id before, [getById] finds it
    afterwards under the uuid that was generated, and every participant
    that could be looked up before is still looked up, unchanged. *)
Theorem enroll_then_getById (pg : Engine)
    (env : Env) (data : Data.t) (user : User) (db db' : Db)
    (p : Participant.t) :
  enroll pg env data user db = (Ok (Some p), db') ->
  (forall row, In row (pajsm_participants db) ->
               Participant.id row <> Participant.id p) /\
  getById pg (uuid env) user db' = (Ok p, db') /\
  (forall id q, getById pg id user db = (Ok q, db) ->
                getById pg id user db' = (Ok q, db')).
Proof.
  intros Hrun.
  destruct (enroll_ok_inv pg env data user db db' p Hrun)
    as (_ & -> & Hid & Hfresh & _).
  apply existsb_false_filter in Hfresh.
  split; [now apply no_row_with_id | split].
  - rewrite getById_run, Hid. cbn [pajsm_participants].
    rewrite filter_app, Hfresh.
    cbn [app filter]. unfold where_id at 1.
    rewrite String.eqb_refl. reflexivity.
  - intros id q Hget. apply getById_found in Hget.
    destruct Hget as (u & Hu & Hq & _).
    rewrite getById_run, Hu. cbn [pajsm_participants].
    rewrite filter_app, first_app, Hq. reflexivity.
Qed.

Lemma enroll_then_getById_witness :
  exists p db',
    enroll Fixture.pg Fixture.env1 Fixture.eligible_body Fixture.user
      (Fixture.store (Fixture.row REFERRAL None None None))
    = (Ok (Some p), db') /\
    getById Fixture.pg (uuid Fixture.env1) Fixture.user db' = (Ok p, db').
Proof.
  eexists _, _. split.
  - vm_compute. reflexivity.
  - refine (proj1 (proj2 (enroll_then_getById Fixture.pg Fixture.env1
                            Fixture.eligible_body Fixture.user
                            (Fixture.store (Fixture.row REFERRAL None None None))
                            _ _ _))).
    vm_compute. reflexivity.
Defined.

Section AdvanceOutcome.

(** What a successful [advanceStage] tells about the row it found. *)
Lemma advanceStage_ok_inv (pg : Engine) (env : Env) (id : string) (user : User)
    (db db' : Db) (p p' : Participant.t) :
  getById pg id user db = (Ok p, db) ->
  advanceStage pg env id user db = (Ok (Some p'), db') ->
  (indexOf PROGRAM_STAGES (Participant.stage p) =? -1) ||
  (indexOf PROGRAM_STAGES (Participant.stage p)
   >=? Z.of_nat (List.length PROGRAM_STAGES) - 1) = false /\
  at_index PROGRAM_STAGES (indexOf PROGRAM_STAGES (Participant.stage p) + 1)
  = Some (Participant.stage p') /\
  getById pg id user db' = (Ok p', db').
Proof.
  intros Hget Hadv.
  destruct ((indexOf PROGRAM_STAGES (Participant.stage p) =? -1) ||
            (indexOf PROGRAM_STAGES (Participant.stage p)
             >=? Z.of_nat (List.length PROGRAM_STAGES) - 1)) eqn:Hguard.
  { rewrite (advanceStage_run pg env id user db p Hget) in Hadv.
    cbn zeta in Hadv. rewrite Hguard in Hadv. discriminate Hadv. }
  destruct (next_stage_defined _ Hguard) as [nextStage Hnext].
  destruct (advanceStage_next pg env id user db p nextStage Hget Hguard Hnext)
    as (db'' & Hadv' & Hget' & _).
  rewrite Hadv in Hadv'. injection Hadv' as -> ->.
  split; [reflexivity | split; [exact Hnext | exact Hget']].
Qed.

End AdvanceOutcome.

(** X11. For a stored participant, [advanceStage] succeeds exactly when its
    stage is one of the five stages before [program_outcome].  At
    [program_outcome], and at any stage value that is not a program stage at
    all, it throws "Cannot advance beyond the final stage" and changes
    nothing. *)
Theorem advanceStage_succeeds_iff_stage_has_successor (pg : Engine)
    (env : Env) (id : string) (user : User) (db : Db) (p : Participant.t) :
  getById pg id user db = (Ok p, db) ->
  ((exists p' db', advanceStage pg env id user db = (Ok (Some p'), db')) <->
   In (Participant.stage p)
      [REFERRAL; PROSECUTOR_EVALUATION; CLINICAL_ELIGIBILITY;
       INTERVENTION_PLAN; HEARING_FOLLOWUPS]) /\
  (~ In (Participant.stage p)
        [REFERRAL; PROSECUTOR_EVALUATION; CLINICAL_ELIGIBILITY;
         INTERVENTION_PLAN; HEARING_FOLLOWUPS] ->
   advanceStage pg env id user db = (Throw err_final_stage, db)).
Proof.
  intros Hget.
  assert (Hthrow :
    ~ In (Participant.stage p)
         [REFERRAL; PROSECUTOR_EVALUATION; CLINICAL_ELIGIBILITY;
          INTERVENTION_PLAN; HEARING_FOLLOWUPS] ->
    advanceStage pg env id user db = (Throw err_final_stage, db)).
  { intros Hnot. rewrite (advanceStage_run pg env id user db p Hget).
    destruct (stage_cases (Participant.stage p)) as [Hin | Hout].
    - cbn [PROGRAM_STAGES In] in Hin.
      destruct Hin as [H | [H | [H | [H | [H | [H | []]]]]]];
        try (elim Hnot; rewrite <- H; cbn; tauto).
      rewrite <- H. reflexivity.
    - cbn zeta. rewrite Hout. reflexivity. }
  split; [| exact Hthrow].
  split.
  - intros (p' & db' & Hadv).
    assert (Hdec : forall (s : string) (L : list string), In s L \/ ~ In s L).
    { intros s L. destruct (in_dec string_dec s L); auto. }
    destruct (Hdec (Participant.stage p)
                [REFERRAL; PROSECUTOR_EVALUATION; CLINICAL_ELIGIBILITY;
                 INTERVENTION_PLAN; HEARING_FOLLOWUPS]) as [H | H];
      [exact H |].
    rewrite (Hthrow H) in Hadv. discriminate Hadv.
  - intros Hin. cbn [In] in Hin.
    assert (Hguard :
      (indexOf PROGRAM_STAGES (Participant.stage p) =? -1) ||
      (indexOf PROGRAM_STAGES (Participant.stage p)
       >=? Z.of_nat (List.length PROGRAM_STAGES) - 1) = false).
    { destruct Hin as [H | [H | [H | [H | [H | []]]]]];
        rewrite <- H; reflexivity. }
    destruct (next_stage_defined _ Hguard) as [nextStage Hnext].
    destruct (advanceStage_next pg env id user db p nextStage Hget Hguard Hnext)
      as (db' & Hadv & _).
    eauto.
Qed.

Lemma advanceStage_succeeds_iff_stage_has_successor_witness :
  advanceStage Fixture.pg Fixture.env1 Fixture.p1 Fixture.user
    (Fixture.store (Fixture.row "at_large" None None None))
  = (Throw err_final_stage,
     Fixture.store (Fixture.row "at_large" None None None)).
Proof.
  apply (proj2 (advanceStage_succeeds_iff_stage_has_successor Fixture.pg Fixture.env1
                  Fixture.p1 Fixture.user
                  (Fixture.store (Fixture.row "at_large" None None None))
                  (Fixture.row "at_large" None None None) eq_refl)).
  cbn. intros [H | [H | [H | [H | [H | []]]]]]; discriminate H.
Defined.

(** X12. A successful [advanceStage] moves the participant exactly one place
    forward in [PROGRAM_STAGES]: the index of the new stage is the index of
    the old stage plus one, never less and never more; and the row returned
    is the row stored. *)
Theorem advanceStage_moves_one_stage (pg : Engine)
    (env : Env) (id : string) (user : User) (db db' : Db)
    (p p' : Participant.t) :
  getById pg id user db = (Ok p, db) ->
  advanceStage pg env id user db = (Ok (Some p'), db') ->
  0 <= indexOf PROGRAM_STAGES (Participant.stage p) < 5 /\
  indexOf PROGRAM_STAGES (Participant.stage p')
  = indexOf PROGRAM_STAGES (Participant.stage p) + 1 /\
  getById pg id user db' = (Ok p', db').
Proof.
  intros Hget Hadv.
  destruct (advanceStage_ok_inv pg env id user db db' p p' Hget Hadv)
    as (Hguard & Hnext & Hget').
  split; [| split; [| exact Hget']].
  - destruct (stage_cases (Participant.stage p)) as [Hin | Hout].
    + cbn [PROGRAM_STAGES In] in Hin.
      destruct Hin as [H | [H | [H | [H | [H | [H | []]]]]]];
        rewrite <- H in *; cbn; try lia.
      discriminate Hguard.
    + rewrite Hout in Hguard. discriminate Hguard.
  - destruct (stage_cases (Participant.stage p)) as [Hin | Hout].
    + cbn [PROGRAM_STAGES In] in Hin.
      destruct Hin as [H | [H | [H | [H | [H | [H | []]]]]]];
        rewrite <- H in *;
        first [ discriminate Hguard
              | injection Hnext as <-; reflexivity ].
    + rewrite Hout in Hguard. discriminate Hguard.
Qed.

Lemma advanceStage_moves_one_stage_witness :
  indexOf PROGRAM_STAGES CLINICAL_ELIGIBILITY
  = indexOf PROGRAM_STAGES PROSECUTOR_EVALUATION + 1.
Proof.
  apply (advanceStage_moves_one_stage Fixture.pg Fixture.env2 Fixture.p1 Fixture.user
           (Fixture.store (Fixture.row PROSECUTOR_EVALUATION (Some 500) None None))
           (Fixture.store
              (Participant.with_updated_at 2001
                 (Fixture.row CLINICAL_ELIGIBILITY (Some 500) None None)))
           (Fixture.row PROSECUTOR_EVALUATION (Some 500) None None)
           (Participant.with_updated_at 2001
              (Fixture.row CLINICAL_ELIGIBILITY (Some 500) None None))
           eq_refl eq_refl).
Defined.

Section OtherRows.

Lemma filter_update_other (updates : list Assignment) (u u' : string)
    (table : list Participant.t) :
  u' <> u ->
  filter (where_id u')
    (map (fun p => if where_id u p then set updates p else p) table)
  = filter (where_id u') table.
Proof.
  intros Hne.
  induction table as [| q table IH]; cbn [map filter]; [reflexivity |].
  rewrite IH.
  destruct (where_id u q) eqn:E; [| reflexivity].
  rewrite where_id_set.
  unfold where_id in *. apply String.eqb_eq in E.
  assert (Hq : String.eqb (Participant.id q) u' = false)
    by (apply String.eqb_neq; congruence).
  now rewrite Hq.
Qed.

Lemma same_or_updated_other (pg : Engine) (id id' : string) (user : User)
    (db db1 : Db) :
  same_or_updated pg id db db1 ->
  uuid_in pg id' <> uuid_in pg id ->
  fst (getById pg id' user db1) = fst (getById pg id' user db) /\
  pajsm_intervention_plans db1 = pajsm_intervention_plans db /\
  pajsm_follow_ups db1 = pajsm_follow_ups db.
Proof.
  intros [-> | [updates ->]] Hne; [auto |].
  unfold update_participants.
  destruct (uuid_in pg id) as [u |] eqn:Eu; [| auto].
  cbn [snd pajsm_intervention_plans pajsm_follow_ups].
  split; [| auto].
  rewrite !getById_run. cbn [pajsm_participants].
  destruct (uuid_in pg id') as [u' |]; [| reflexivity].
  rewrite (filter_update_other updates u u') by congruence.
  destruct (first (filter (where_id u') (pajsm_participants db)));
    reflexivity.
Qed.

Lemma update_then_first (pg : Engine) (updates : list Assignment)
    (id : string) (db : Db) :
  snd ((rows <- update_participants pg updates id ;; ret (first rows)) db)
  = snd (update_participants pg updates id db).
Proof.
  unfold bind, update_participants, ret.
  destruct (uuid_in pg id); reflexivity.
Qed.

Lemma advanceStage_same_or_updated (pg : Engine) (env : Env) (id : string)
    (user : User) (db : Db) :
  same_or_updated pg id db (snd (advanceStage pg env id user db)).
Proof.
  unfold advanceStage, bind at 1. rewrite getById_run.
  destruct (uuid_in pg id) as [u |]; [| now left].
  destruct (first (filter (where_id u) (pajsm_participants db))) as [p |];
    [| now left].
  destruct ((indexOf PROGRAM_STAGES (Participant.stage p) =? -1) ||
            (indexOf PROGRAM_STAGES (Participant.stage p)
             >=? Z.of_nat (List.length PROGRAM_STAGES) - 1)); [now left |].
  destruct (at_index PROGRAM_STAGES
              (indexOf PROGRAM_STAGES (Participant.stage p) + 1));
    [| now left].
  right. eexists. apply update_then_first.
Qed.

Lemma withdraw_same_or_updated (pg : Engine) (env : Env) (id : string)
    (reason : JsValue) (user : User) (db : Db) :
  same_or_updated pg id db (snd (withdraw pg env id reason user db)).
Proof.
  unfold withdraw, bind at 1. rewrite getById_run.
  destruct (uuid_in pg id) as [u |]; [| now left].
  destruct (first (filter (where_id u) (pajsm_participants db))) as [p |];
    [| now left].
  destruct (truthy (outcome_value (Participant.outcome p))); [now left |].
  right. eexists. apply update_then_first.
Qed.

Lemma revokeVictimConsent_same_or_updated (pg : Engine) (env : Env)
    (id : string) (user : User) (db : Db) :
  same_or_updated pg id db (snd (revokeVictimConsent pg env id user db)).
Proof.
  unfold revokeVictimConsent, bind at 1. rewrite getById_run.
  destruct (uuid_in pg id) as [u |]; [| now left].
  destruct (first (filter (where_id u) (pajsm_participants db))) as [p |];
    [| now left].
  destruct (truthy (outcome_value (Participant.outcome p))); [now left |].
  right. eexists. apply update_then_first.
Qed.

End OtherRows.

(** X13. [advanceStage], [withdraw] and [revokeVictimConsent] on one
    participant never touch another: when the two ids do not read as the
    same uuid, then, whether the call returns or throws, [getById] on the
    other id gives afterwards what it gave before, and the plans and
    follow-ups tables are as they were. *)
Theorem other_participants_untouched (pg : Engine)
    (env : Env) (id id' : string) (reason : JsValue) (user : User)
    (db db1 : Db) :
  uuid_in pg id' <> uuid_in pg id ->
  db1 = snd (advanceStage pg env id user db) \/
  db1 = snd (withdraw pg env id reason user db) \/
  db1 = snd (revokeVictimConsent pg env id user db) ->
  fst (getById pg id' user db1) = fst (getById pg id' user db) /\
  pajsm_intervention_plans db1 = pajsm_intervention_plans db /\
  pajsm_follow_ups db1 = pajsm_follow_ups db.
Proof.
  intros Hne [-> | [-> | ->]];
    apply (same_or_updated_other pg id id' user db); try exact Hne.
  - apply advanceStage_same_or_updated.
  - apply withdraw_same_or_updated.
  - apply revokeVictimConsent_same_or_updated.
Qed.

Lemma other_participants_untouched_witness :
  let other :=
    Participant.mk Fixture.p2 JsNull (JsString "B. Other") JsNull
      (JsArray [JsString "asd"]) (JsBool false) JsNull (JsString "theft")
      (JsString "summary") (JsBool true) (JsBool true) (JsBool true)
      (JsBool true) JsNull JsNull REFERRAL None None None 20 20 in
  let db :=
    mkDb [Fixture.u1] [] [Fixture.row REFERRAL None None None; other] [] [] in
  fst (getById Fixture.pg Fixture.p2 Fixture.user
         (snd (withdraw Fixture.pg Fixture.env1 Fixture.p1 JsUndefined
                 Fixture.user db)))
  = Ok other.
Proof.
  cbn zeta.
  refine (eq_trans
            (proj1 (other_participants_untouched Fixture.pg Fixture.env1
                      Fixture.p1 Fixture.p2 JsUndefined Fixture.user _ _ _
                      (or_intror (or_introl eq_refl))))
            _).
  - vm_compute. discriminate.
  - reflexivity.
Defined.

Section OutcomeStays.

Lemma assign_keeps_outcome_set (a : Assignment) (p : Participant.t) :
  Participant.outcome p <> None ->
  Participant.outcome (assign a p) <> None.
Proof. destruct a; cbn; auto; discriminate. Qed.

Lemma set_keeps_outcome_set (updates : list Assignment) (p : Participant.t) :
  Participant.outcome p <> None ->
  Participant.outcome (set updates p) <> None.
Proof.
  unfold set. revert p.
  induction updates as [| a updates IH]; intros p Hp; cbn [fold_left].
  - exact Hp.
  - apply IH. now apply assign_keeps_outcome_set.
Qed.

(** [getById] reads the participants table only, and finds the first row:
    rows added at the end do not change what it finds. *)
Lemma getById_after_insert (pg : Engine) (id : string) (user : User)
    (db db1 : Db) (p : Participant.t) (rows : list Participant.t) :
  pajsm_participants db1 = (pajsm_participants db ++ rows)%list ->
  getById pg id user db = (Ok p, db) ->
  getById pg id user db1 = (Ok p, db1).
Proof.
  intros Htable Hget. apply getById_found in Hget.
  destruct Hget as (u & Hu & Hp & _).
  rewrite getById_run, Hu, Htable, filter_app, first_app, Hp. reflexivity.
Qed.

Lemma final_kept_by_update (pg : Engine) (id id2 : string) (user : User)
    (db db1 : Db) (p : Participant.t) :
  same_or_updated pg id2 db db1 ->
  getById pg id user db = (Ok p, db) ->
  Participant.outcome p <> None ->
  exists p1,
    getById pg id user db1 = (Ok p1, db1) /\ Participant.outcome p1 <> None.
Proof.
  intros [-> | [updates ->]] Hget Hout; [eauto |].
  unfold update_participants.
  destruct (uuid_in pg id2) as [u2 |] eqn:E2; [| cbn [snd]; eauto].
  cbn [snd].
  pose proof Hget as Hfound. apply getById_found in Hfound.
  destruct Hfound as (u & Hu & Hp & _).
  rewrite getById_run, Hu. cbn [pajsm_participants].
  destruct (String.eqb_spec u u2) as [<- | Hne].
  - rewrite filter_update, first_map, Hp. cbn [option_map].
    eexists. split; [reflexivity |]. now apply set_keeps_outcome_set.
  - rewrite (filter_update_other updates u2 u _ Hne), Hp. eauto.
Qed.

Lemma enroll_table (pg : Engine) (env : Env) (data : Data.t) (user : User)
    (db : Db) :
  exists rows,
    pajsm_participants (snd (enroll pg env data user db))
    = (pajsm_participants db ++ rows)%list.
Proof.
  unfold enroll.
  destruct (eligible (checkEligibility data));
    [| exists []; cbn; now rewrite app_nil_r].
  cbn [negb]. unfold bind.
  match goal with
  | |- context [insert_participant pg ?now ?id ?a1 ?a2 ?a3 ?a4 ?a5 ?a6 ?a7
                  ?a8 ?a9 ?a10 ?a11 ?a12 ?a13 ?a14 ?st db] =>
      destruct (insert_participant_run pg now id a1 a2 a3 a4 a5 a6 a7 a8 a9
                  a10 a11 a12 a13 a14 st db)
        as [(row & -> & _) | (violations & _ & ->)]
  end.
  - exists [row]. reflexivity.
  - exists []. cbn. now rewrite app_nil_r.
Qed.

Lemma createInterventionPlan_table (pg : Engine) (env : Env) (id : string)
    (data : PlanData.t) (user : User) (db : Db) :
  pajsm_participants (snd (createInterventionPlan pg env id data user db))
  = pajsm_participants db.
Proof.
  unfold createInterventionPlan, bind at 1.
  destruct (getById pg id user db) as [[p | e] db'] eqn:Hget.
  - pose proof (getById_keeps_db pg id user db) as Hdb.
    rewrite Hget in Hdb. cbn [snd] in Hdb. subst db'.
    destruct (negb (String.eqb (Participant.stage p) INTERVENTION_PLAN));
      [reflexivity |].
    unfold bind.
    match goal with
    | |- context [insert_intervention_plan pg ?now ?i ?pid ?a1 ?a2 ?by_ db] =>
        destruct (insert_intervention_plan_run pg now i pid a1 a2 by_ db)
          as [(row & -> & _) | (violations & _ & ->)]
    end; reflexivity.
  - pose proof (getById_keeps_db pg id user db) as Hdb.
    rewrite Hget in Hdb. cbn [snd] in Hdb. now subst db'.
Qed.

Lemma addFollowUp_table (pg : Engine) (env : Env) (id : string)
    (data : FollowUpData.t) (user : User) (db : Db) :
  pajsm_participants (snd (addFollowUp pg env id data user db))
  = pajsm_participants db.
Proof.
  unfold addFollowUp, bind at 1.
  destruct (getById pg id user db) as [[p | e] db'] eqn:Hget.
  - pose proof (getById_keeps_db pg id user db) as Hdb.
    rewrite Hget in Hdb. cbn [snd] in Hdb. subst db'.
    destruct (negb (String.eqb (Participant.stage p) HEARING_FOLLOWUPS));
      [reflexivity |].
    unfold bind.
    match goal with
    | |- context [insert_follow_up pg ?now ?i ?pid ?a1 ?a2 ?by_ db] =>
        destruct (insert_follow_up_run pg now i pid a1 a2 by_ db)
          as [(row & -> & _) | (violations & _ & ->)]
    end; reflexivity.
  - pose proof (getById_keeps_db pg id user db) as Hdb.
    rewrite Hget in Hdb. cbn [snd] in Hdb. now subst db'.
Qed.

(** A participant whose outcome is set is still there, with an outcome,
    after any request. *)
Lemma final_kept_by_serve (pg : Engine) (id : string) (user : User)
    (request : Request) (db : Db) (p : Participant.t) :
  getById pg id user db = (Ok p, db) ->
  Participant.outcome p <> None ->
  exists p1,
    getById pg id user (serve pg request db) = (Ok p1, serve pg request db) /\
    Participant.outcome p1 <> None.
Proof.
  intros Hget Hout.
  destruct request as [env data user2 | env id2 user2 | env id2 reason user2
                      | env id2 user2 | env id2 data user2
                      | env id2 data user2];
    cbn [serve].
  - destruct (enroll_table pg env data user2 db) as [rows Hrows].
    exists p. split; [| exact Hout].
    now apply (getById_after_insert pg id user db _ p rows).
  - apply (final_kept_by_update pg id id2 user db _ p); auto.
    apply advanceStage_same_or_updated.
  - apply (final_kept_by_update pg id id2 user db _ p); auto.
    apply withdraw_same_or_updated.
  - apply (final_kept_by_update pg id id2 user db _ p); auto.
    apply revokeVictimConsent_same_or_updated.
  - exists p. split; [| exact Hout].
    apply (getById_after_insert pg id user db _ p []); [| exact Hget].
    now rewrite createInterventionPlan_table, app_nil_r.
  - exists p. split; [| exact Hout].
    apply (getById_after_insert pg id user db _ p []); [| exact Hget].
    now rewrite addFollowUp_table, app_nil_r.
Qed.

Lemma final_kept_by_serve_all (pg : Engine) (id : string) (user : User)
    (requests : list Request) (db : Db) (p : Participant.t) :
  getById pg id user db = (Ok p, db) ->
  Participant.outcome p <> None ->
  exists p1,
    getById pg id user (serve_all pg requests db)
    = (Ok p1, serve_all pg requests db) /\
    Participant.outcome p1 <> None.
Proof.
  unfold serve_all. revert db p.
  induction requests as [| request requests IH]; intros db p Hget Hout;
    cbn [fold_left]; [eauto |].
  destruct (final_kept_by_serve pg id user request db p Hget Hout)
    as (p1 & Hget1 & Hout1).
  exact (IH _ p1 Hget1 Hout1).
Qed.

End OutcomeStays.

(** X8. The exits are final.  Once [withdraw] or [revokeVictimConsent] has
    succeeded on a participant, or [advanceStage] has moved it from
    [hearing_followups] into [program_outcome], then after any further
    requests to the service, on this participant or on others, returning or
    throwing, [withdraw] and [revokeVictimConsent] on it throw "Participant
    already has a final outcome" and leave the database as they find it.
    (The outcome may have been overwritten meanwhile by [advanceStage]; it
    is never unset.) *)
Theorem exits_are_final (pg : Engine)
    (env env' : Env) (id : string) (reason reason' : JsValue) (user : User)
    (db db1 : Db) (p : Participant.t) (requests : list Request) :
  getById pg id user db = (Ok p, db) ->
  (Participant.outcome p = None /\
   db1 = snd (withdraw pg env id reason user db)) \/
  (Participant.outcome p = None /\
   db1 = snd (revokeVictimConsent pg env id user db)) \/
  (Participant.stage p = HEARING_FOLLOWUPS /\
   db1 = snd (advanceStage pg env id user db)) ->
  let db2 := serve_all pg requests db1 in
  withdraw pg env' id reason' user db2 = (Throw err_final_outcome, db2) /\
  revokeVictimConsent pg env' id user db2 = (Throw err_final_outcome, db2).
Proof.
  intros Hget Hexit db2.
  assert (Hfinal : exists p1,
            getById pg id user db1 = (Ok p1, db1) /\
            Participant.outcome p1 <> None).
  { destruct Hexit as [[Hout ->] | [[Hout ->] | [Hstage ->]]].
    - rewrite (withdraw_run pg env id reason user db p Hget Hout).
      destruct (update_participants_run pg
                  [outcome_eq withdrawn; completed_at_eq (now_db env);
                   updated_at_eq (now_db env)] id user db p Hget)
        as (db' & -> & Hget' & _).
      cbn [snd]. eexists. split; [exact Hget' | discriminate].
    - rewrite (revokeVictimConsent_run pg env id user db p Hget Hout).
      destruct (update_participants_run pg
                  [victim_consent_eq (JsBool false);
                   outcome_eq returned_to_court; completed_at_eq (now_db env);
                   updated_at_eq (now_db env)] id user db p Hget)
        as (db' & -> & Hget' & _).
      cbn [snd]. eexists. split; [exact Hget' | discriminate].
    - destruct (advanceStage_next pg env id user db p PROGRAM_OUTCOME Hget)
        as (db' & -> & Hget' & _); try (rewrite Hstage; reflexivity).
      cbn [snd]. eexists. split; [exact Hget' | discriminate]. }
  destruct Hfinal as (p1 & Hget1 & Hout1).
  destruct (final_kept_by_serve_all pg id user requests db1 p1 Hget1 Hout1)
    as (p2 & Hget2 & Hout2).
  fold db2 in Hget2.
  destruct (Participant.outcome p2) as [o |] eqn:Ho; [| now elim Hout2].
  exact (final_outcome_guard pg env' id reason' user db2 p2 o Hget2 Ho).
Qed.

Lemma exits_are_final_witness :
  let db2 :=
    serve_all Fixture.pg
      [call_advanceStage Fixture.env2 Fixture.p1 Fixture.user;
       call_enroll Fixture.env3 Fixture.eligible_body Fixture.user]
      (snd (revokeVictimConsent Fixture.pg Fixture.env1 Fixture.p1
              Fixture.user
              (Fixture.store (Fixture.row REFERRAL None None None)))) in
  withdraw Fixture.pg Fixture.env4 Fixture.p1 JsUndefined Fixture.user db2
  = (Throw err_final_outcome, db2).
Proof.
  cbn zeta.
  apply (exits_are_final Fixture.pg Fixture.env1 Fixture.env4 Fixture.p1
           JsUndefined JsUndefined Fixture.user
           (Fixture.store (Fixture.row REFERRAL None None None)) _
           (Fixture.row REFERRAL None None None)
           [call_advanceStage Fixture.env2 Fixture.p1 Fixture.user;
            call_enroll Fixture.env3 Fixture.eligible_body Fixture.user]
           eq_refl).
  right. left. split; reflexivity.
Defined.

(** X14. A participant is only ever created from an input the evaluator
    accepted; and because [enroll] sends [data.victim_consent || null], a
    [victim_consent] that is [false], or falsy in any other way, is stored
    as NULL, not as FALSE. *)
Theorem enroll_stores_null_for_falsy_consent (pg : Engine)
    (env : Env) (data : Data.t) (user : User) (db db' : Db)
    (p : Participant.t) :
  enroll pg env data user db = (Ok (Some p), db') ->
  eligible (checkEligibility data) = true /\
  (truthy (Data.victim_consent data) = false ->
   Participant.victim_consent p = JsNull).
Proof.
  intros Hrun.
  destruct (enroll_ok_inv pg env data user db db' p Hrun)
    as (Hel & _ & _ & _ & Hconsent).
  split; [exact Hel |].
  intros Hfalsy. rewrite Hconsent. unfold js_or. rewrite Hfalsy. reflexivity.
Qed.

Lemma enroll_stores_null_for_falsy_consent_witness :
  exists p,
    fst (enroll Fixture.pg Fixture.env1
           (Fixture.body (JsArray [JsString "asd"]) (JsString "theft")
              (JsString "summary") (JsBool false) (JsBool true))
           Fixture.user Fixture.empty)
    = Ok (Some p) /\
    Participant.victim_consent p = JsNull.
Proof.
  eexists. split.
  - vm_compute. reflexivity.
  - refine (proj2 (enroll_stores_null_for_falsy_consent Fixture.pg
                     Fixture.env1
                     (Fixture.body (JsArray [JsString "asd"])
                        (JsString "theft") (JsString "summary")
                        (JsBool false) (JsBool true))
                     Fixture.user Fixture.empty _ _ _) _).
    + vm_compute. reflexivity.
    + reflexivity.
Defined.

(* ================================================================== *)
(** * Properties of the HTTP layer *)

Section HttpFacts.

Lemma authorize_denies (roles : list string) (user : User) :
  ~ In (user_role user) roles ->
  Http.authorize roles user
  = Some {| Http.status := 403;
            Http.body := Http.json_error "Insufficient permissions" |}.
Proof.
  intros Hnot. unfold Http.authorize.
  destruct (existsb (String.eqb (user_role user)) roles) eqn:E;
    [| reflexivity].
  apply existsb_eqb_In in E. contradiction.
Qed.

Lemma authorize_allows (roles : list string) (user : User) :
  In (user_role user) roles -> Http.authorize roles user = None.
Proof.
  intros Hin. unfold Http.authorize.
  apply existsb_eqb_In in Hin. now rewrite Hin.
Qed.

Lemma route_denied {A} (roles : list string) (user : User) (ok : Z)
    (to_json : A -> Http.Json) (call : M A) (db : Db) :
  ~ In (user_role user) roles ->
  Http.route (Some roles) user ok to_json call db
  = ({| Http.status := 403;
        Http.body := Http.json_error "Insufficient permissions" |}, db).
Proof.
  intros Hnot. unfold Http.route. now rewrite authorize_denies.
Qed.

Lemma route_throw {A} (roles : list string) (user : User) (ok : Z)
    (to_json : A -> Http.Json) (call : M A) (db db' : Db) (e : Error) :
  In (user_role user) roles ->
  call db = (Throw e, db') ->
  Http.route (Some roles) user ok to_json call db = (Http.errorHandler e, db').
Proof.
  intros Hrole Hcall. unfold Http.route.
  rewrite authorize_allows by exact Hrole. now rewrite Hcall.
Qed.

Lemma route_throw_open {A} (user : User) (ok : Z)
    (to_json : A -> Http.Json) (call : M A) (db db' : Db) (e : Error) :
  call db = (Throw e, db') ->
  Http.route None user ok to_json call db = (Http.errorHandler e, db').
Proof. intros Hcall. unfold Http.route. now rewrite Hcall. Qed.

End HttpFacts.

(** X15. A user whose role is not among those a route lists is answered 403
    "Insufficient permissions" and the service is not called: the database
    is unchanged.  This holds for enrolment, advancing, withdrawing, revoking
    consent (administrators only), creating an intervention plan and adding
    a follow-up, whatever the role table. *)
Theorem forbidden_role_is_refused (pg : Engine)
    (ROLES : Http.Roles) (env : Env) (user : User) (id : string)
    (reason : JsValue) (data : Data.t) (plan : PlanData.t)
    (followUp : FollowUpData.t) (db : Db) :
  let denied :=
    {| Http.status := 403;
       Http.body := Http.json_error "Insufficient permissions" |} in
  (~ In (user_role user)
        [Http.MENTAL_HEALTH_PROFESSIONAL ROLES; Http.PROSECUTOR ROLES;
         Http.ADMIN ROLES] ->
   Http.post_enroll pg ROLES env user data db = (denied, db)) /\
  (~ In (user_role user)
        [Http.MENTAL_HEALTH_PROFESSIONAL ROLES; Http.PROSECUTOR ROLES;
         Http.TRIBUNAL_MEMBER ROLES; Http.ADMIN ROLES] ->
   Http.patch_advance pg ROLES env user id db = (denied, db) /\
   Http.patch_withdraw pg ROLES env user id reason db = (denied, db)) /\
  (user_role user <> Http.ADMIN ROLES ->
   Http.patch_revoke_consent pg ROLES env user id db = (denied, db)) /\
  (~ In (user_role user)
        [Http.MENTAL_HEALTH_PROFESSIONAL ROLES; Http.ADMIN ROLES] ->
   Http.post_intervention_plan pg ROLES env user id plan db = (denied, db)) /\
  (~ In (user_role user)
        [Http.TRIBUNAL_MEMBER ROLES; Http.MENTAL_HEALTH_PROFESSIONAL ROLES;
         Http.ADMIN ROLES] ->
   Http.post_follow_up pg ROLES env user id followUp db = (denied, db)).
Proof.
  cbn zeta.
  split; [| split; [| split; [| split]]].
  - intros H. now apply route_denied.
  - intros H. split; now apply route_denied.
  - intros H. apply route_denied. intros [E | []]. now apply H.
  - intros H. now apply route_denied.
  - intros H. now apply route_denied.
Qed.

Lemma forbidden_role_is_refused_witness :
  let ROLES :=
    Http.mkRoles "police_officer" "mental_health_professional" "physician"
      "tribunal_member" "requesting_party" "respondent" "prosecutor" "admin" in
  let clinician := mkUser "user-2" "nurse@example.org" "mental_health_professional" in
  let db := Fixture.store (Fixture.row REFERRAL None None None) in
  Http.patch_revoke_consent Fixture.pg ROLES Fixture.env1 clinician Fixture.p1 db
  = ({| Http.status := 403;
        Http.body := Http.json_error "Insufficient permissions" |}, db).
Proof.
  cbn zeta.
  apply (forbidden_role_is_refused Fixture.pg
           (Http.mkRoles "police_officer" "mental_health_professional"
              "physician" "tribunal_member" "requesting_party" "respondent"
              "prosecutor" "admin")
           Fixture.env1
           (mkUser "user-2" "nurse@example.org" "mental_health_professional")
           Fixture.p1 JsUndefined Fixture.eligible_body Fixture.plan_body
           Fixture.follow_up_body
           (Fixture.store (Fixture.row REFERRAL None None None))).
  discriminate.
Defined.

(** X16. An enrolment refused by the evaluator is answered, to a user allowed
    to enrol, with status 400 and the one message "Participant is not
    eligible for PAJ-SM+": the reasons the evaluator collected are on the
    thrown error but not in the response, so two ineligible bodies get the
    same response; and nothing is stored. *)
Theorem ineligible_enrolment_response_has_no_reasons (pg : Engine)
    (ROLES : Http.Roles) (env : Env) (user : User) (data : Data.t) (db : Db) :
  In (user_role user)
     [Http.MENTAL_HEALTH_PROFESSIONAL ROLES; Http.PROSECUTOR ROLES;
      Http.ADMIN ROLES] ->
  eligible (checkEligibility data) = false ->
  Http.post_enroll pg ROLES env user data db
  = ({| Http.status := 400;
        Http.body := Http.json_error "Participant is not eligible for PAJ-SM+" |},
     db).
Proof.
  intros Hrole Hel. unfold Http.post_enroll.
  rewrite (route_throw _ user 201 Http.json_participant (enroll pg env data user)
             db db (err_not_eligible (reasons (checkEligibility data))) Hrole).
  - reflexivity.
  - unfold enroll. now rewrite Hel.
Qed.

Lemma ineligible_enrolment_response_has_no_reasons_witness :
  let ROLES :=
    Http.mkRoles "police_officer" "mental_health_professional" "physician"
      "tribunal_member" "requesting_party" "respondent" "prosecutor" "admin" in
  Http.post_enroll Fixture.pg ROLES Fixture.env1 Fixture.user Fixture.failing_body
    Fixture.empty
  = ({| Http.status := 400;
        Http.body := Http.json_error "Participant is not eligible for PAJ-SM+" |},
     Fixture.empty).
Proof.
  cbn zeta.
  apply ineligible_enrolment_response_has_no_reasons.
  - cbn. tauto.
  - reflexivity.
Defined.

(** X17. How the errors of the stage operations reach the client.  For a
    user whose role the route admits: on an id that reads as a uuid no
    participant has, looking up, advancing and withdrawing answer 404
    "PAJ-SM+ participant not found"; on an id that does not read as a uuid
    they answer 500 "Internal server error", the database's error having no
    status code; withdrawing a participant whose outcome is set answers 400
    "Participant already has a final outcome"; advancing a participant at
    [program_outcome] answers 400 "Cannot advance beyond the final stage".
    The database is unchanged in each case. *)
Theorem stage_errors_reach_the_client (pg : Engine)
    (ROLES : Http.Roles) (env : Env) (user : User) (id : string)
    (reason : JsValue) (db : Db) :
  In (user_role user)
     [Http.MENTAL_HEALTH_PROFESSIONAL ROLES; Http.PROSECUTOR ROLES;
      Http.TRIBUNAL_MEMBER ROLES; Http.ADMIN ROLES] ->
  (forall u,
     uuid_in pg id = Some u ->
     (forall row, In row (pajsm_participants db) -> Participant.id row <> u) ->
     let not_found :=
       {| Http.status := 404;
          Http.body := Http.json_error "PAJ-SM+ participant not found" |} in
     Http.get_by_id pg user id db = (not_found, db) /\
     Http.patch_advance pg ROLES env user id db = (not_found, db) /\
     Http.patch_withdraw pg ROLES env user id reason db = (not_found, db)) /\
  (uuid_in pg id = None ->
   let failed :=
     {| Http.status := 500;
        Http.body := Http.json_error "Internal server error" |} in
   Http.get_by_id pg user id db = (failed, db) /\
   Http.patch_advance pg ROLES env user id db = (failed, db) /\
   Http.patch_withdraw pg ROLES env user id reason db = (failed, db)) /\
  (forall p o,
     getById pg id user db = (Ok p, db) ->
     Participant.outcome p = Some o ->
     Http.patch_withdraw pg ROLES env user id reason db
     = ({| Http.status := 400;
           Http.body :=
             Http.json_error "Participant already has a final outcome" |},
        db)) /\
  (forall p,
     getById pg id user db = (Ok p, db) ->
     Participant.stage p = PROGRAM_OUTCOME ->
     Http.patch_advance pg ROLES env user id db
     = ({| Http.status := 400;
           Http.body :=
             Http.json_error "Cannot advance beyond the final stage" |},
        db)).
Proof.
  intros Hrole.
  assert (Hthrown : forall e,
            getById pg id user db = (Throw e, db) ->
            Http.get_by_id pg user id db = (Http.errorHandler e, db) /\
            Http.patch_advance pg ROLES env user id db
            = (Http.errorHandler e, db) /\
            Http.patch_withdraw pg ROLES env user id reason db
            = (Http.errorHandler e, db)).
  { intros e Hget. split; [| split].
    - unfold Http.get_by_id.
      now rewrite (route_throw_open user 200 _ (getById pg id user) db db
                     e Hget).
    - unfold Http.patch_advance.
      rewrite (route_throw _ user 200 Http.json_participant
                 (advanceStage pg env id user) db db e Hrole);
        [reflexivity |].
      unfold advanceStage, bind. now rewrite Hget.
    - unfold Http.patch_withdraw.
      rewrite (route_throw _ user 200 Http.json_participant
                 (withdraw pg env id reason user) db db e Hrole);
        [reflexivity |].
      unfold withdraw, bind. now rewrite Hget. }
  split; [| split; [| split]].
  - intros u Hu Hnone. cbn zeta.
    apply (Hthrown err_not_found).
    apply no_row_with_id in Hnone. rewrite getById_run, Hu, Hnone. reflexivity.
  - intros Hu. cbn zeta.
    apply (Hthrown (db_error pg [invalid_input "id"])).
    rewrite getById_run, Hu. reflexivity.
  - intros p o Hget Hout. unfold Http.patch_withdraw.
    rewrite (route_throw _ user 200 Http.json_participant
               (withdraw pg env id reason user) db db err_final_outcome Hrole);
      [reflexivity |].
    apply (final_outcome_guard pg env id reason user db p o Hget Hout).
  - intros p Hget Hstage. unfold Http.patch_advance.
    rewrite (route_throw _ user 200 Http.json_participant
               (advanceStage pg env id user) db db err_final_stage Hrole);
      [reflexivity |].
    rewrite (advanceStage_run pg env id user db p Hget), Hstage. reflexivity.
Qed.

Lemma stage_errors_reach_the_client_witness :
  let ROLES :=
    Http.mkRoles "police_officer" "mental_health_professional" "physician"
      "tribunal_member" "requesting_party" "respondent" "prosecutor" "admin" in
  let db :=
    Fixture.store
      (Fixture.row PROGRAM_OUTCOME (Some 500) (Some 900) (Some completed)) in
  Http.patch_advance Fixture.pg ROLES Fixture.env1 Fixture.user Fixture.p1 db
  = ({| Http.status := 400;
        Http.body := Http.json_error "Cannot advance beyond the final stage" |},
     db) /\
  Http.get_by_id Fixture.pg Fixture.user Fixture.p2 db
  = ({| Http.status := 404;
        Http.body := Http.json_error "PAJ-SM+ participant not found" |}, db) /\
  Http.get_by_id Fixture.pg Fixture.user "p-1" db
  = ({| Http.status := 500;
        Http.body := Http.json_error "Internal server error" |}, db).
Proof.
  cbn zeta.
  pose (ROLES := Http.mkRoles "police_officer" "mental_health_professional"
                   "physician" "tribunal_member" "requesting_party"
                   "respondent" "prosecutor" "admin").
  pose (db := Fixture.store
                (Fixture.row PROGRAM_OUTCOME (Some 500) (Some 900)
                   (Some completed))).
  assert (Hrole : In (user_role Fixture.user)
                     [Http.MENTAL_HEALTH_PROFESSIONAL ROLES;
                      Http.PROSECUTOR ROLES; Http.TRIBUNAL_MEMBER ROLES;
                      Http.ADMIN ROLES]) by (cbn; tauto).
  split; [| split].
  - refine (proj2 (proj2 (proj2 (stage_errors_reach_the_client Fixture.pg
                                   ROLES Fixture.env1 Fixture.user Fixture.p1
                                   JsUndefined db Hrole)))
              (Fixture.row PROGRAM_OUTCOME (Some 500) (Some 900)
                 (Some completed))
              eq_refl eq_refl).
  - refine (proj1 (proj1 (stage_errors_reach_the_client Fixture.pg
                            ROLES Fixture.env1 Fixture.user Fixture.p2
                            JsUndefined db Hrole)
                     Fixture.p2 eq_refl _)).
    intros row [<- | []]. vm_compute. discriminate.
  - refine (proj1 (proj1 (proj2 (stage_errors_reach_the_client Fixture.pg
                                   ROLES Fixture.env1 Fixture.user "p-1"
                                   JsUndefined db Hrole)) eq_refl)).
Defined.

(* ================================================================== *)
(** * What the stage operations keep *)

Section FrameFacts.

(** No [SET] clause of the service reaches the identity, the creation date
    or the eligibility snapshot (the victim's consent apart). *)
Lemma set_frame (updates : list Assignment) (p : Participant.t) :
  set updates p
  = Participant.mk (Participant.id p) (Participant.referral_id p)
      (Participant.accused_name p) (Participant.district p)
      (Participant.vulnerabilities p) (Participant.diagnosed p)
      (Participant.offence_description p) (Participant.offence_category p)
      (Participant.prosecution_mode p) (Participant.accepts_responsibility p)
      (Participant.is_voluntary p) (Participant.waives_delay p)
      (Participant.criminally_fit p)
      (Participant.victim_consent (set updates p))
      (Participant.victim_consent_mode p)
      (Participant.stage (set updates p))
      (Participant.enrolled_at (set updates p))
      (Participant.completed_at (set updates p))
      (Participant.outcome (set updates p))
      (Participant.created_at p)
      (Participant.updated_at (set updates p)).
Proof.
  unfold set. revert p.
  induction updates as [| a updates IH]; intros p; cbn [fold_left].
  - destruct p; reflexivity.
  - rewrite IH at 1. destruct a; reflexivity.
Qed.

Lemma getById_after_update (pg : Engine) (updates : list Assignment) (id : string)
    (user : User) (db : Db) (p : Participant.t) :
  getById pg id user db = (Ok p, db) ->
  getById pg id user (snd (update_participants pg updates id db))
  = (Ok (set updates p), snd (update_participants pg updates id db)).
Proof.
  intros Hget. apply getById_found in Hget.
  destruct Hget as (u & Hu & Hp & _).
  rewrite getById_run. unfold update_participants. rewrite Hu.
  cbn [snd pajsm_participants].
  now rewrite filter_update, first_map, Hp.
Qed.

(** After any of the three operations the participant is still there. *)
Lemma same_or_updated_found (pg : Engine) (id : string) (user : User) (db db1 : Db)
    (p : Participant.t) :
  same_or_updated pg id db db1 ->
  getById pg id user db = (Ok p, db) ->
  db1 = db \/
  exists updates,
    getById pg id user db1 = (Ok (set updates p), db1).
Proof.
  intros [-> | [updates ->]] Hget; [now left |].
  right. exists updates. now apply getById_after_update.
Qed.

Lemma enrolled_at_kept_by_advanceStage (pg : Engine) (env : Env) (id : string)
    (user : User) (db : Db) (p : Participant.t) (t : Timestamp) :
  getById pg id user db = (Ok p, db) ->
  Participant.enrolled_at p = Some t ->
  exists p1,
    getById pg id user (snd (advanceStage pg env id user db))
    = (Ok p1, snd (advanceStage pg env id user db)) /\
    Participant.enrolled_at p1 = Some t.
Proof.
  intros Hget Ht.
  destruct ((indexOf PROGRAM_STAGES (Participant.stage p) =? -1) ||
            (indexOf PROGRAM_STAGES (Participant.stage p)
             >=? Z.of_nat (List.length PROGRAM_STAGES) - 1)) eqn:Hguard.
  - rewrite (advanceStage_run pg env id user db p Hget). cbn zeta.
    rewrite Hguard. cbn [snd]. eauto.
  - destruct (next_stage_defined _ Hguard) as [nextStage Hnext].
    destruct (advanceStage_next pg env id user db p nextStage Hget Hguard Hnext)
      as (db' & -> & Hget' & _).
    cbn [snd]. eexists. split; [exact Hget' |].
    cbn [Participant.enrolled_at Participant.with_outcome
         Participant.with_completed_at Participant.with_enrolled_at].
    now rewrite Ht.
Qed.

Lemma enrolled_at_kept_by_exits (pg : Engine) (env : Env) (id : string) (reason : JsValue)
    (user : User) (db : Db) (p : Participant.t) :
  getById pg id user db = (Ok p, db) ->
  (exists p1,
     getById pg id user (snd (withdraw pg env id reason user db))
     = (Ok p1, snd (withdraw pg env id reason user db)) /\
     Participant.enrolled_at p1 = Participant.enrolled_at p) /\
  (exists p1,
     getById pg id user (snd (revokeVictimConsent pg env id user db))
     = (Ok p1, snd (revokeVictimConsent pg env id user db)) /\
     Participant.enrolled_at p1 = Participant.enrolled_at p).
Proof.
  intros Hget.
  destruct (Participant.outcome p) as [o |] eqn:Hout.
  - destruct (final_outcome_guard pg env id reason user db p o Hget Hout)
      as [-> ->].
    cbn [snd]. split; exists p; auto.
  - rewrite (withdraw_run pg env id reason user db p Hget Hout),
            (revokeVictimConsent_run pg env id user db p Hget Hout).
    split.
    + destruct (update_participants_run pg
                  [outcome_eq withdrawn; completed_at_eq (now_db env);
                   updated_at_eq (now_db env)] id user db p Hget)
        as (db' & -> & Hget' & _).
      cbn [snd]. eexists. split; [exact Hget' | reflexivity].
    + destruct (update_participants_run pg
                  [victim_consent_eq (JsBool false);
                   outcome_eq returned_to_court; completed_at_eq (now_db env);
                   updated_at_eq (now_db env)] id user db p Hget)
        as (db' & -> & Hget' & _).
      cbn [snd]. eexists. split; [exact Hget' | reflexivity].
Qed.

End FrameFacts.

(** X18. A stored participant survives [advanceStage], [withdraw] and
    [revokeVictimConsent], returning or throwing: it is still found under
    its id, and its id, its creation date and its eligibility snapshot
    (referral, name, district, vulnerabilities, diagnosis, offence, mode,
    attestations, consent mode) are what they were; only [victim_consent],
    [stage], [enrolled_at], [completed_at], [outcome] and [updated_at] can
    differ.  And [enrolled_at], once set, keeps its value. *)
Theorem operations_keep_the_snapshot (pg : Engine)
    (env : Env) (id : string) (reason : JsValue) (user : User)
    (db db1 : Db) (p : Participant.t) :
  getById pg id user db = (Ok p, db) ->
  db1 = snd (advanceStage pg env id user db) \/
  db1 = snd (withdraw pg env id reason user db) \/
  db1 = snd (revokeVictimConsent pg env id user db) ->
  exists p1,
    getById pg id user db1 = (Ok p1, db1) /\
    p1 = Participant.mk (Participant.id p) (Participant.referral_id p)
           (Participant.accused_name p) (Participant.district p)
           (Participant.vulnerabilities p) (Participant.diagnosed p)
           (Participant.offence_description p)
           (Participant.offence_category p) (Participant.prosecution_mode p)
           (Participant.accepts_responsibility p) (Participant.is_voluntary p)
           (Participant.waives_delay p) (Participant.criminally_fit p)
           (Participant.victim_consent p1) (Participant.victim_consent_mode p)
           (Participant.stage p1) (Participant.enrolled_at p1)
           (Participant.completed_at p1) (Participant.outcome p1)
           (Participant.created_at p) (Participant.updated_at p1) /\
    (forall t, Participant.enrolled_at p = Some t ->
               Participant.enrolled_at p1 = Some t).
Proof.
  intros Hget Hdb.
  assert (Hshape : same_or_updated pg id db db1).
  { destruct Hdb as [-> | [-> | ->]].
    - apply advanceStage_same_or_updated.
    - apply withdraw_same_or_updated.
    - apply revokeVictimConsent_same_or_updated. }
  assert (Hkept : forall t, Participant.enrolled_at p = Some t ->
            exists p1, getById pg id user db1 = (Ok p1, db1) /\
                       Participant.enrolled_at p1 = Some t).
  { intros t Ht. destruct Hdb as [-> | [-> | ->]].
    - exact (enrolled_at_kept_by_advanceStage pg env id user db p t Hget Ht).
    - destruct (proj1 (enrolled_at_kept_by_exits pg env id reason user db p Hget))
        as (p1 & H1 & H2).
      exists p1. split; [exact H1 | congruence].
    - destruct (proj2 (enrolled_at_kept_by_exits pg env id reason user db p Hget))
        as (p1 & H1 & H2).
      exists p1. split; [exact H1 | congruence]. }
  destruct (same_or_updated_found pg id user db db1 p Hshape Hget)
    as [-> | [updates Hget1]].
  - exists p. split; [exact Hget |]. split; [destruct p; reflexivity | auto].
  - exists (set updates p). split; [exact Hget1 |].
    split; [apply set_frame |].
    intros t Ht. destruct (Hkept t Ht) as (p1 & H1 & H2).
    rewrite Hget1 in H1. injection H1 as <-. exact H2.
Qed.

Lemma operations_keep_the_snapshot_witness :
  exists p1,
    getById Fixture.pg Fixture.p1 Fixture.user
      (snd (advanceStage Fixture.pg Fixture.env3 Fixture.p1 Fixture.user
              (Fixture.store (Fixture.row REFERRAL (Some 500) None None))))
    = (Ok p1,
       snd (advanceStage Fixture.pg Fixture.env3 Fixture.p1 Fixture.user
              (Fixture.store (Fixture.row REFERRAL (Some 500) None None)))) /\
    Participant.enrolled_at p1 = Some 500.
Proof.
  destruct (operations_keep_the_snapshot Fixture.pg Fixture.env3 Fixture.p1 JsUndefined
              Fixture.user
              (Fixture.store (Fixture.row REFERRAL (Some 500) None None))
              _ (Fixture.row REFERRAL (Some 500) None None)
              eq_refl (or_introl eq_refl))
    as (p1 & Hget & _ & Hkept).
  exists p1. split; [exact Hget | now apply Hkept].
Defined.
